(** * Match-result extraction of [atp.py]

    A shallow embedding of [ATP.get_tournament_singles_results]
    (src/src/atp.py, lines 180-257) and of the library calls it makes,
    followed by the properties of the extraction that the specification
    states.

    Conventions.
    - Python [int] is [Z]; Python [str] is [string] (ASCII text; non-ASCII
      digits and spaces are outside the model); Python lists are [list];
      [None] in an [Optional] is [None] in an [option].
    - An exception is a [Raise] in the [result] monad.  Only the two
      exception classes the function can raise on a parsed page are
      distinguished: [IndexError] and [ValueError].
    - The fetched page is seen through the XPath queries the function runs:
      every node carries the node sets that the queries made on it return. *)

From Stdlib Require Import ZArith List Bool Ascii String Lia DecimalString.
Import ListNotations.

Open Scope string_scope.
Open Scope list_scope.
Open Scope Z_scope.

(* ================================================================== *)
(** ** Exceptions *)

Inductive exn : Type :=
| IndexError
| ValueError.

Inductive result (A : Type) : Type :=
| Ok (a : A)
| Raise (e : exn).

Arguments Ok {A} a.
Arguments Raise {A} e.

Definition bind {A B : Type} (c : result A) (k : A -> result B) : result B :=
  match c with
  | Ok a => k a
  | Raise e => Raise e
  end.

Notation "x <- c ;; k" := (bind c (fun x => k))
  (at level 61, c at next level, right associativity).
Notation "' p <- c ;; k" := (bind c (fun x => let p := x in k))
  (at level 61, p pattern, c at next level, right associativity).

(** A [for] loop over a Python list whose body updates the loop state [S]
    and may raise. *)
Fixpoint for_each {A S : Type} (body : A -> S -> result S)
         (l : list A) (s : S) : result S :=
  match l with
  | [] => Ok s
  | a :: l' => s' <- body a s ;; for_each body l' s'
  end.

(** [enumerate(l)], counting from [i]. *)
Fixpoint enumerate_from {A : Type} (i : Z) (l : list A) : list (Z * A) :=
  match l with
  | [] => []
  | a :: l' => (i, a) :: enumerate_from (i + 1) l'
  end.

Definition enumerate {A : Type} (l : list A) : list (Z * A) :=
  enumerate_from 0 l.

(* ================================================================== *)
(** ** Python built-ins used by the function *)

Module Py.

(** [l[i]] on a list, with Python's negative indices. *)
Definition index {A : Type} (l : list A) (i : Z) : result A :=
  let n := Z.of_nat (List.length l) in
  let j := if i <? 0 then i + n else i in
  if (0 <=? j) && (j <? n) then
    match nth_error l (Z.to_nat j) with
    | Some x => Ok x
    | None => Raise IndexError
    end
  else Raise IndexError.

Definition code (c : ascii) : Z := Z.of_nat (nat_of_ascii c).

(** [str.isspace] on one ASCII character: TAB..CR, FS..US and SPACE. *)
Definition isspace (c : ascii) : bool :=
  let n := code c in
  ((9 <=? n) && (n <=? 13)) || ((28 <=? n) && (n <=? 31)) || (n =? 32).

(** The narrower class the integer parser skips: TAB..CR and SPACE. *)
Definition isspace_c (c : ascii) : bool :=
  let n := code c in
  ((9 <=? n) && (n <=? 13)) || (n =? 32).

Definition isdigit (c : ascii) : bool :=
  let n := code c in (48 <=? n) && (n <=? 57).

Definition isalpha (c : ascii) : bool :=
  let n := code c in
  ((65 <=? n) && (n <=? 90)) || ((97 <=? n) && (n <=? 122)).

Definition digit_value (c : ascii) : Z := code c - 48.

Definition lower (c : ascii) : ascii :=
  let n := code c in
  if (65 <=? n) && (n <=? 90) then ascii_of_nat (Z.to_nat (n + 32)) else c.

Fixpoint dropwhile {A : Type} (p : A -> bool) (l : list A) : list A :=
  match l with
  | [] => []
  | a :: l' => if p a then dropwhile p l' else l
  end.

Fixpoint takewhile {A : Type} (p : A -> bool) (l : list A) : list A :=
  match l with
  | [] => []
  | a :: l' => if p a then a :: takewhile p l' else []
  end.

Definition strip_by (p : ascii -> bool) (l : list ascii) : list ascii :=
  rev (dropwhile p (rev (dropwhile p l))).

(** [s.strip()]. *)
Definition strip (s : string) : string :=
  string_of_list_ascii (strip_by isspace (list_ascii_of_string s)).

(** [s.split(sep)] for a one-character separator: never an empty list. *)
Fixpoint split (sep : ascii) (s : string) : list string :=
  match s with
  | EmptyString => [EmptyString]
  | String c r =>
      if Ascii.eqb c sep then EmptyString :: split sep r
      else match split sep r with
           | [] => [String c EmptyString]
           | h :: t => String c h :: t
           end
  end.

(** Decimal digits with single underscores between them, as [int] takes
    them.  [prev] tells whether the previous character was a digit. *)
Fixpoint digits (acc : Z) (prev : bool) (l : list ascii) : option Z :=
  match l with
  | [] => if prev then Some acc else None
  | c :: l' =>
      if isdigit c then digits (10 * acc + digit_value c) true l'
      else if Ascii.eqb c "_" && prev then digits acc false l'
      else None
  end.

(** [int(s)] on a string, base 10: blanks around, an optional sign, digits. *)
Definition int (s : string) : result Z :=
  let body := strip_by isspace_c (list_ascii_of_string s) in
  let signed :=
    match body with
    | "-"%char :: ds => option_map Z.opp (digits 0 false ds)
    | "+"%char :: ds => digits 0 false ds
    | ds => digits 0 false ds
    end in
  match signed with
  | Some z => Ok z
  | None => Raise ValueError
  end.

End Py.

(* ================================================================== *)
(** ** [datetime.strptime(text, '%a, %d %B, %Y').date()]

    The library turns the format into one regular expression, matched
    without regard to case against the whole text: an abbreviated weekday
    name, a comma, blanks, a day of the month, blanks, a full month name,
    a comma, blanks and four digits.  The weekday is read and then
    ignored; the date is built from the other three fields and rejected
    when the day does not exist in that month or the year is 0.  Names are
    those of the C locale. *)

Module Datetime.

Record date : Type := mkdate { year : Z; month : Z; day : Z }.

Definition weekday_abbr : list string :=
  ["mon"; "tue"; "wed"; "thu"; "fri"; "sat"; "sun"].

Definition month_name : list string :=
  ["january"; "february"; "march"; "april"; "may"; "june"; "july";
   "august"; "september"; "october"; "november"; "december"].

Definition lower_word (l : list ascii) : string :=
  string_of_list_ascii (map Py.lower l).

(** 1-based position of [w] in [names]. *)
Fixpoint position (w : string) (names : list string) (i : Z) : option Z :=
  match names with
  | [] => None
  | n :: names' => if String.eqb w n then Some i else position w names' (i + 1)
  end.

(** The day field: [3[0-1]|[1-2]\d|0[1-9]|[1-9]]. *)
Definition day_field (ds : list ascii) : option Z :=
  match ds with
  | [d] => let v := Py.digit_value d in if 1 <=? v then Some v else None
  | [d1; d2] =>
      let a := Py.digit_value d1 in
      let b := Py.digit_value d2 in
      if ((a =? 3) && (b <=? 1)) || (a =? 1) || (a =? 2) || ((a =? 0) && (1 <=? b))
      then Some (10 * a + b) else None
  | _ => None
  end.

(** The year field: exactly four digits, up to the end of the text. *)
Definition year_field (ds : list ascii) : option Z :=
  match ds with
  | [a; b; c; d] =>
      if forallb Py.isdigit ds
      then Some (1000 * Py.digit_value a + 100 * Py.digit_value b
                 + 10 * Py.digit_value c + Py.digit_value d)
      else None
  | _ => None
  end.

Definition is_leap (y : Z) : bool :=
  ((y mod 4 =? 0) && negb (y mod 100 =? 0)) || (y mod 400 =? 0).

Definition days_in_month (y m : Z) : Z :=
  if m =? 2 then (if is_leap y then 29 else 28)
  else if (m =? 4) || (m =? 6) || (m =? 9) || (m =? 11) then 30
  else 31.

(** One or more blanks, then the rest. *)
Definition blanks (l : list ascii) : option (list ascii) :=
  match l with
  | c :: _ => if Py.isspace c then Some (Py.dropwhile Py.isspace l) else None
  | [] => None
  end.

Definition comma (l : list ascii) : option (list ascii) :=
  match l with
  | ","%char :: l' => Some l'
  | _ => None
  end.

Definition opt_bind {A B : Type} (o : option A) (k : A -> option B) : option B :=
  match o with
  | Some a => k a
  | None => None
  end.

Definition parse_a_d_B_Y (l : list ascii) : option date :=
  let wd := Py.takewhile Py.isalpha l in
  opt_bind (position (lower_word wd) weekday_abbr 1) (fun _ =>
  opt_bind (comma (Py.dropwhile Py.isalpha l)) (fun l1 =>
  opt_bind (blanks l1) (fun l2 =>
  opt_bind (day_field (Py.takewhile Py.isdigit l2)) (fun d =>
  opt_bind (blanks (Py.dropwhile Py.isdigit l2)) (fun l3 =>
  opt_bind (position (lower_word (Py.takewhile Py.isalpha l3)) month_name 1) (fun m =>
  opt_bind (comma (Py.dropwhile Py.isalpha l3)) (fun l4 =>
  opt_bind (blanks l4) (fun l5 =>
  opt_bind (year_field l5) (fun y =>
  if (1 <=? y) && (d <=? days_in_month y m)
  then Some (mkdate y m d) else None))))))))).

Definition strptime_a_d_B_Y (text : string) : result date :=
  match parse_a_d_B_Y (list_ascii_of_string text) with
  | Some d => Ok d
  | None => Raise ValueError
  end.

End Datetime.

(* ================================================================== *)
(** ** The records of [atp.py] (lines 8-67)

    Each [NamedTuple] is a module holding a record [t] whose fields keep
    the names of the source. *)

Module PlayerRef.
Record t : Type := mk { id : string; slug : string }.
End PlayerRef.

Module TournamentRef.
Record t : Type := mk { id : string; slug : string }.
End TournamentRef.

Module MatchRef.
Record t : Type := mk { tournament_id : string; year : Z; match_id : string }.
End MatchRef.

Module MatchResult.
Record t : Type := mk {
  match_ref : MatchRef.t;
  date : Datetime.date;
  duration : option Z;
  best_of : Z;
  winner : PlayerRef.t;
  loser : PlayerRef.t;
  w1 : option Z; w1_tb : option Z;
  w2 : option Z; w2_tb : option Z;
  w3 : option Z; w3_tb : option Z;
  w4 : option Z; w4_tb : option Z;
  w5 : option Z; w5_tb : option Z;
  l1 : option Z; l1_tb : option Z;
  l2 : option Z; l2_tb : option Z;
  l3 : option Z; l3_tb : option Z;
  l4 : option Z; l4_tb : option Z;
  l5 : option Z; l5_tb : option Z
}.
End MatchResult.

(* ================================================================== *)
(** ** The results page, as the queries of the function see it

    Each field is the node set one XPath query returns on that node, in
    document order; text nodes and attribute values are strings. *)

(** A [div class="stats-item"] (one competitor block). *)
Record stats_item : Type := {
  (** [.//div[@class="name"]/a/@href] *)
  name_href : list string;
  (** for each [.//div[@class="score-item"]], its [span/text()] *)
  score_items : list (list string);
  (** number of nodes of [.//div[@class="winner"]] *)
  winner_divs : nat
}.

(** A [div class="match"]. *)
Record match_block : Type := {
  (** [.//div[@class="match-header"]/span[2]/text()] *)
  header_span2_text : list string;
  (** [.//div[@class="stats-item"]] *)
  stats_items : list stats_item
}.

(** A [div class="atp_accordion-item"] (one day group). *)
Record accordion_item : Type := {
  (** [.//div[@class="tournament-day"]/h4/text()] *)
  tournament_day_h4_text : list string;
  (** [.//div[@class="match-cta"]/a[text()="Stats"]/@href] *)
  stats_href : list string;
  (** [.//div[@class="match"]] *)
  matches : list match_block
}.

(** The document: for each node of [//div[@class="atp_accordion-items"]],
    its [.//div[@class="atp_accordion-item"]]. *)
Record doctree : Type := {
  accordion_items : list (list accordion_item)
}.

(* ================================================================== *)
(** ** [get_tournament_singles_results] (lines 180-257) *)

Definition len {A : Type} (l : list A) : Z := Z.of_nat (List.length l).

(** Lines 196-200. The three-way unpacking of [map(int, ...)] raises
    [ValueError] both for a part that is no integer and for a number of
    parts other than three. *)
Definition parse_duration (texts : list string) : result (option Z) :=
  let duration :=
    match texts with
    | [t] => Some (Py.strip t)
    | _ => None
    end in
  match duration with
  | None => Ok None
  | Some d =>
      match map Py.int (Py.split ":" d) with
      | [Ok dur_hrs; Ok dur_mins; Ok _] => Ok (Some (dur_hrs * 60 + dur_mins))
      | _ => Raise ValueError
      end
  end.

(** Lines 210-217: the body of the loop over the score items of one
    competitor; the state is [(sets, tiebreaks)]. *)
Definition score_item_body (scores : list string)
           (st : list Z * list (option Z)) : result (list Z * list (option Z)) :=
  let '(sets, tiebreaks) := st in
  match scores with
  | [s0] =>
      g <- Py.int s0 ;;
      Ok (sets ++ [g], tiebreaks ++ [None])
  | [s0; s1] =>
      g <- Py.int s0 ;;
      tb <- Py.int s1 ;;
      Ok (sets ++ [g], tiebreaks ++ [Some tb])
  | _ => Ok st
  end.

(** The variables of line 202, the state of the loop over competitors. *)
Record competitors : Type := {
  players : list PlayerRef.t;
  player_sets : list (list Z);
  player_tbs : list (list (option Z));
  winner_idx : option Z
}.

Definition no_competitors : competitors :=
  {| players := []; player_sets := []; player_tbs := []; winner_idx := None |}.

(** Lines 204-206: the reference read from the profile link of a block. *)
Definition profile_ref (player_info : stats_item) : result PlayerRef.t :=
  player_href <- Py.index (name_href player_info) 0 ;;
  id <- Py.index (Py.split "/" player_href) 4 ;;
  slug <- Py.index (Py.split "/" player_href) 3 ;;
  Ok (PlayerRef.mk id slug).

(** Lines 204-222: the body of the loop over [enumerate(stats items)]. *)
Definition stats_item_body (ip : Z * stats_item) (st : competitors)
  : result competitors :=
  let '(i, player_info) := ip in
  p <- profile_ref player_info ;;
  let players' := players st ++ [p] in
  '(sets, tiebreaks) <- for_each score_item_body (score_items player_info) ([], []) ;;
  Ok {| players := players';
        player_sets := player_sets st ++ [sets];
        player_tbs := player_tbs st ++ [tiebreaks];
        winner_idx := if (0 <? winner_divs player_info)%nat
                      then Some i else winner_idx st |}.

(** [zip] of three lists: as long as the shortest. *)
Fixpoint zip3 {A B C : Type} (a : list A) (b : list B) (c : list C)
  : list (A * B * C) :=
  match a, b, c with
  | x :: a', y :: b', z :: c' => (x, y, z) :: zip3 a' b' c'
  | _, _, _ => []
  end.

Definition is_not_none {A : Type} (o : option A) : bool :=
  match o with
  | Some _ => true
  | None => false
  end.

(** Lines 231-232: the body of the loop over the aligned sets; the state
    is [(sets_played, winner_won_sets)]. *)
Definition aligned_set_body (st : Z * Z) (s : Z * Z * option Z) : Z * Z :=
  let '(sets_played, winner_won_sets) := st in
  let '(wset, lset, wtbs) := s in
  (sets_played + 1,
   winner_won_sets + Z.b2z ((wset >=? lset) || is_not_none wtbs)).

(** The local variables of one iteration of the loop over matches when it
    reaches line 234; [victor] is the value of [winner_idx]. *)
Record alignment : Type := {
  duration : option Z;
  blocks : competitors;
  victor : Z;
  sets_played : Z;
  winner_won_sets : Z
}.

(** Lines 196-232. [Ok None] is the [continue] of line 225. *)
Definition scan_match (m : match_block) : result (option alignment) :=
  dur <- parse_duration (header_span2_text m) ;;
  st <- for_each stats_item_body (enumerate (stats_items m)) no_competitors ;;
  match len (players st) =? 2, winner_idx st with
  | true, Some w =>
      wsets <- Py.index (player_sets st) w ;;
      lsets <- Py.index (player_sets st) (1 - w) ;;
      wtbs <- Py.index (player_tbs st) w ;;
      let '(n, won) := fold_left aligned_set_body (zip3 wsets lsets wtbs) (0, 0) in
      Ok (Some {| duration := dur; blocks := st; victor := w;
                  sets_played := n; winner_won_sets := won |})
  | _, _ => Ok None
  end.

(** [rows[who][k] if sets_played >= k+1 else None], for the games. *)
Definition set_slot (rows : list (list Z)) (who k n : Z) : result (option Z) :=
  if n >=? k + 1 then
    row <- Py.index rows who ;;
    v <- Py.index row k ;;
    Ok (Some v)
  else Ok None.

(** The same for the tiebreaks, whose entries are themselves optional. *)
Definition tb_slot (rows : list (list (option Z))) (who k n : Z)
  : result (option Z) :=
  if n >=? k + 1 then
    row <- Py.index rows who ;;
    Py.index row k
  else Ok None.

(** Lines 234-256: the record appended to [entries]. *)
Definition make_entry (match_ref : MatchRef.t) (date : Datetime.date)
           (a : alignment) : result MatchResult.t :=
  let st := blocks a in
  let w := victor a in
  let n := sets_played a in
  let best_of := if winner_won_sets a =? 2 then 3 else 5 in
  winner <- Py.index (players st) w ;;
  loser <- Py.index (players st) (1 - w) ;;
  w1 <- set_slot (player_sets st) w 0 n ;;
  w1_tb <- tb_slot (player_tbs st) w 0 n ;;
  w2 <- set_slot (player_sets st) w 1 n ;;
  w2_tb <- tb_slot (player_tbs st) w 1 n ;;
  w3 <- set_slot (player_sets st) w 2 n ;;
  w3_tb <- tb_slot (player_tbs st) w 2 n ;;
  w4 <- set_slot (player_sets st) w 3 n ;;
  w4_tb <- tb_slot (player_tbs st) w 3 n ;;
  w5 <- set_slot (player_sets st) w 4 n ;;
  w5_tb <- tb_slot (player_tbs st) w 4 n ;;
  l1 <- set_slot (player_sets st) (1 - w) 0 n ;;
  l1_tb <- tb_slot (player_tbs st) (1 - w) 0 n ;;
  l2 <- set_slot (player_sets st) (1 - w) 1 n ;;
  l2_tb <- tb_slot (player_tbs st) (1 - w) 1 n ;;
  l3 <- set_slot (player_sets st) (1 - w) 2 n ;;
  l3_tb <- tb_slot (player_tbs st) (1 - w) 2 n ;;
  l4 <- set_slot (player_sets st) (1 - w) 3 n ;;
  l4_tb <- tb_slot (player_tbs st) (1 - w) 3 n ;;
  l5 <- set_slot (player_sets st) (1 - w) 4 n ;;
  l5_tb <- tb_slot (player_tbs st) (1 - w) 4 n ;;
  Ok (MatchResult.mk match_ref date (duration a) best_of winner loser
        w1 w1_tb w2 w2_tb w3 w3_tb w4 w4_tb w5 w5_tb
        l1 l1_tb l2 l2_tb l3 l3_tb l4 l4_tb l5 l5_tb).

(** Lines 195-256: the body of the loop over the matches of a day; the
    state is [entries]. *)
Definition match_body (match_ref : MatchRef.t) (date : Datetime.date)
           (m : match_block) (entries : list MatchResult.t)
  : result (list MatchResult.t) :=
  a <- scan_match m ;;
  match a with
  | None => Ok entries
  | Some a => r <- make_entry match_ref date a ;; Ok (entries ++ [r])
  end.

(** Lines 188-193: the date and the match reference shared by the matches
    of a day. *)
Definition day_header (tournament : TournamentRef.t) (year : Z)
           (tday : accordion_item) : result (MatchRef.t * Datetime.date) :=
  text <- Py.index (tournament_day_h4_text tday) 0 ;;
  date <- Datetime.strptime_a_d_B_Y (Py.strip text) ;;
  href <- Py.index (stats_href tday) 0 ;;
  match_id <- Py.index (Py.split "/" href) (-1) ;;
  Ok (MatchRef.mk (TournamentRef.id tournament) year match_id, date).

(** Lines 187-256: the body of the loop over the days of the page. *)
Definition day_body (tournament : TournamentRef.t) (year : Z)
           (tday : accordion_item) (entries : list MatchResult.t)
  : result (list MatchResult.t) :=
  hd <- day_header tournament year tday ;;
  for_each (match_body (fst hd) (snd hd)) (matches tday) entries.

(** The function, on the parsed body of the response. *)
Definition get_tournament_singles_results (tournament : TournamentRef.t)
           (year : Z) (doc : doctree) : result (list MatchResult.t) :=
  accordion <- Py.index (accordion_items doc) 0 ;;
  for_each (day_body tournament year) accordion [].

(* ================================================================== *)
(** ** Vocabulary of the statements *)

(** The per-block results of the loop, block by block. *)
Inductive scanned :
  list stats_item -> list PlayerRef.t -> list (list Z) ->
  list (list (option Z)) -> Prop :=
| scanned_nil : scanned [] [] [] []
| scanned_cons b items p ps sets ss tbs ts :
    profile_ref b = Ok p ->
    for_each score_item_body (score_items b) ([], []) = Ok (sets, tbs) ->
    scanned items ps ss ts ->
    scanned (b :: items) (p :: ps) (sets :: ss) (tbs :: ts).

(** The index the loop leaves in [winner_idx]: that of the last block
    carrying a winner marker. *)
Fixpoint last_marked (i : Z) (items : list stats_item) (w : option Z)
  : option Z :=
  match items with
  | [] => w
  | b :: items' =>
      last_marked (i + 1) items' (if (0 <? winner_divs b)%nat then Some i else w)
  end.

(** The rule of the specification for one aligned pair: the victor's games
    are at least the opponent's, or the victor's slot has a tiebreak. *)
Definition won_by_victor (s : Z * Z * option Z) : Prop :=
  let '(wset, lset, wtbs) := s in
  lset <= wset \/ wtbs <> None.

(** [counts P l n]: exactly [n] elements of [l] satisfy [P]. *)
Inductive counts {A : Type} (P : A -> Prop) : list A -> Z -> Prop :=
| counts_nil : counts P [] 0
| counts_yes a l n : P a -> counts P l n -> counts P (a :: l) (n + 1)
| counts_no a l n : ~ P a -> counts P l n -> counts P (a :: l) n.

(** The aligned sets as the specification describes them: the two
    sequences paired position by position, with the victor's tiebreaks. *)
Definition aligned (wsets lsets : list Z) (wtbs : list (option Z))
  : list (Z * Z * option Z) :=
  combine (combine wsets lsets) wtbs.

(** The row of a two-row table that [who] selects. *)
Definition pick {A : Type} (who : Z) (r0 r1 : A) : A :=
  if who =? 0 then r0 else r1.

(** The facts behind a match that reaches line 234. *)
Record scan_facts (m : match_block) (a : alignment)
       (b0 b1 : stats_item) (p0 p1 : PlayerRef.t)
       (s0 s1 : list Z) (t0 t1 : list (option Z)) : Prop := {
  sf_items : stats_items m = [b0; b1];
  sf_p0 : profile_ref b0 = Ok p0;
  sf_p1 : profile_ref b1 = Ok p1;
  sf_s0 : for_each score_item_body (score_items b0) ([], []) = Ok (s0, t0);
  sf_s1 : for_each score_item_body (score_items b1) ([], []) = Ok (s1, t1);
  sf_duration : parse_duration (header_span2_text m) = Ok (duration a);
  sf_players : players (blocks a) = [p0; p1];
  sf_sets : player_sets (blocks a) = [s0; s1];
  sf_tbs : player_tbs (blocks a) = [t0; t1];
  sf_victor : victor a = 0 \/ victor a = 1;
  sf_marked : last_marked 0 [b0; b1] None = Some (victor a);
  sf_loop :
    fold_left aligned_set_body
      (zip3 (pick (victor a) s0 s1) (pick (victor a) s1 s0)
            (pick (victor a) t0 t1)) (0, 0)
    = (sets_played a, winner_won_sets a)
}.

(** The games and tiebreak of slot [i] (1..5) on each side of a record. *)
Definition winner_set (r : MatchResult.t) (i : Z) : option Z :=
  match i with
  | 1 => MatchResult.w1 r | 2 => MatchResult.w2 r | 3 => MatchResult.w3 r
  | 4 => MatchResult.w4 r | 5 => MatchResult.w5 r | _ => None
  end.

Definition loser_set (r : MatchResult.t) (i : Z) : option Z :=
  match i with
  | 1 => MatchResult.l1 r | 2 => MatchResult.l2 r | 3 => MatchResult.l3 r
  | 4 => MatchResult.l4 r | 5 => MatchResult.l5 r | _ => None
  end.

Definition winner_tb (r : MatchResult.t) (i : Z) : option Z :=
  match i with
  | 1 => MatchResult.w1_tb r | 2 => MatchResult.w2_tb r
  | 3 => MatchResult.w3_tb r | 4 => MatchResult.w4_tb r
  | 5 => MatchResult.w5_tb r | _ => None
  end.

Definition loser_tb (r : MatchResult.t) (i : Z) : option Z :=
  match i with
  | 1 => MatchResult.l1_tb r | 2 => MatchResult.l2_tb r
  | 3 => MatchResult.l3_tb r | 4 => MatchResult.l4_tb r
  | 5 => MatchResult.l5_tb r | _ => None
  end.

(** [emitted_from doc r m a]: the page [doc] has the match block [m], the
    iteration on [m] reaches line 234 with the local variables [a], and
    the record built there is [r]. *)
Definition emitted_from (tournament : TournamentRef.t) (year : Z)
           (doc : doctree) (r : MatchResult.t) (m : match_block)
           (a : alignment) : Prop :=
  exists days tday hd,
    Py.index (accordion_items doc) 0 = Ok days /\
    In tday days /\
    day_header tournament year tday = Ok hd /\
    In m (matches tday) /\
    scan_match m = Ok (Some a) /\
    make_entry (fst hd) (snd hd) a = Ok r.

(** The loop over days reaches [tday] with [entries] collected so far. *)
Definition reaches_day (tournament : TournamentRef.t) (year : Z)
           (doc : doctree) (tday : accordion_item)
           (entries : list MatchResult.t) : Prop :=
  exists pre post,
    Py.index (accordion_items doc) 0 = Ok (pre ++ tday :: post) /\
    for_each (day_body tournament year) pre [] = Ok entries.

(** The loop over the matches of a day with header [hd] reaches [m]. *)
Definition reaches_match (tournament : TournamentRef.t) (year : Z)
           (doc : doctree) (hd : MatchRef.t * Datetime.date)
           (m : match_block) (entries : list MatchResult.t) : Prop :=
  exists tday entries0 pre post,
    reaches_day tournament year doc tday entries0 /\
    day_header tournament year tday = Ok hd /\
    matches tday = pre ++ m :: post /\
    for_each (match_body (fst hd) (snd hd)) pre entries0 = Ok entries.

(** The text [t] reads as [h:m:s]: three parts between colons, each one
    an integer for [int]. *)
Definition duration_parts (t : string) (h m s : Z) : Prop :=
  exists a b c,
    Py.split ":" (Py.strip t) = [a; b; c] /\
    Py.int a = Ok h /\ Py.int b = Ok m /\ Py.int c = Ok s.

(** The sequence the specification describes for one competitor: a slot
    per score entry, holding its first token, and a gap where the entry
    has neither one nor two tokens. *)
Definition slots_with_gaps (items : list (list string)) : list (option string) :=
  map (fun scores =>
         match scores with
         | [g] => Some g
         | [g; _] => Some g
         | _ => None
         end) items.

(** A block whose score entries are [items], and a match of such blocks. *)
Definition with_score_items (b : stats_item) (items : list (list string))
  : stats_item :=
  {| name_href := name_href b; score_items := items;
     winner_divs := winner_divs b |}.

Definition with_stats_items (m : match_block) (items : list stats_item)
  : match_block :=
  {| header_span2_text := header_span2_text m; stats_items := items |}.

(* ================================================================== *)
(** ** Sample pages *)

Module Sample.

Definition tournament : TournamentRef.t := TournamentRef.mk "336" "hong-kong".

Definition block (href : string) (scores : list (list string)) (marks : nat)
  : stats_item :=
  {| name_href := [href]; score_items := scores; winner_divs := marks |}.

Definition a_match (dur : list string) (items : list stats_item) : match_block :=
  {| header_span2_text := dur; stats_items := items |}.

Definition a_day (title : string) (hrefs : list string) (ms : list match_block)
  : accordion_item :=
  {| tournament_day_h4_text := [title]; stats_href := hrefs; matches := ms |}.

Definition page (days : list accordion_item) : doctree :=
  {| accordion_items := [days] |}.

Definition stats_link : string := "/en/scores/stats-centre/archive/2024/336/ms001".

Definition rublev : string := "/en/players/andrey-rublev/re44/overview".
Definition ruusuvuori : string := "/en/players/emil-ruusuvuori/rc91/overview".
Definition shang : string := "/en/players/juncheng-shang/s0re/overview".

(** Scenario B of the specification: the victor won 6-4 7-6(3). *)
Definition scenario_B : match_block :=
  a_match ["01:23:45"]
          [block rublev [["6"]; ["7"; "3"]] 1;
           block ruusuvuori [["4"]; ["6"]] 0].

Definition scenario_B_alignment : alignment :=
  {| duration := Some 83;
     blocks := {| players := [PlayerRef.mk "re44" "andrey-rublev";
                              PlayerRef.mk "rc91" "emil-ruusuvuori"];
                  player_sets := [[6; 7]; [4; 6]];
                  player_tbs := [[None; Some 3]; [None; None]];
                  winner_idx := Some 0 |};
     victor := 0;
     sets_played := 2;
     winner_won_sets := 2 |}.

Definition scenario_B_page : doctree :=
  page [a_day "Mon, 15 January, 2024" [stats_link] [scenario_B]].

Definition scenario_B_result : MatchResult.t :=
  MatchResult.mk (MatchRef.mk "336" 2024 "ms001") (Datetime.mkdate 2024 1 15)
    (Some 83) 3
    (PlayerRef.mk "re44" "andrey-rublev") (PlayerRef.mk "rc91" "emil-ruusuvuori")
    (Some 6) None (Some 7) (Some 3) None None None None None None
    (Some 4) None (Some 6) None None None None None None None.

(** Both competitor blocks link to the same profile. *)
Definition same_profile_page : doctree :=
  page [a_day "Mon, 15 January, 2024" [stats_link]
          [a_match ["01:23:45"]
                   [block rublev [["6"]; ["6"]] 1;
                    block rublev [["4"]; ["3"]] 0]]].

(** Six score entries on each side. *)
Definition six_sets : match_block :=
  a_match []
          [block rublev [["6"]; ["4"]; ["6"]; ["4"]; ["6"]; ["6"]] 1;
           block shang [["4"]; ["6"]; ["4"]; ["6"]; ["4"]; ["2"]] 0].

(** A day without a link labelled Stats. *)
Definition no_stats_page : doctree :=
  page [a_day "Mon, 15 January, 2024" [] [scenario_B]].

(** A duration that is not of the form H:MM:SS. *)
Definition bad_duration : match_block :=
  a_match ["1h23"]
          [block rublev [["6"]; ["6"]] 1; block shang [["4"]; ["3"]] 0].

Definition no_duration : match_block :=
  a_match []
          [block rublev [["6"]; ["6"]] 1; block shang [["4"]; ["3"]] 0].

Definition bad_duration_page : doctree :=
  page [a_day "Mon, 15 January, 2024" [stats_link] [scenario_B; bad_duration]].

(** A good day followed by a day whose title is no date. *)
Definition bad_date_page : doctree :=
  page [a_day "Mon, 15 January, 2024" [stats_link] [scenario_B];
        a_day "Day 2" [stats_link] [scenario_B]].

(** Both competitor blocks carry a winner marker. *)
Definition both_marked : match_block :=
  a_match ["01:23:45"]
          [block rublev [["6"]; ["6"]] 1; block shang [["4"]; ["3"]] 1].

(** Three competitor blocks; no block carries a winner marker. *)
Definition three_blocks : match_block :=
  a_match ["01:23:45"]
          [block rublev [["6"]] 1; block shang [["4"]] 0;
           block ruusuvuori [["2"]] 0].

Definition unmarked : match_block :=
  a_match ["01:23:45"]
          [block rublev [["6"]; ["6"]] 0; block shang [["4"]; ["3"]] 0].

(** Scenario C: the victor's second score entry has three tokens. *)
Definition three_tokens : match_block :=
  a_match ["01:23:45"]
          [block rublev [["6"]; ["7"; "6"; "3"]; ["6"]] 1;
           block shang [["4"]; ["6"]; ["2"]] 0].

End Sample.

(* ================================================================== *)
(** ** Further vocabulary *)


(** A score entry of one or two tokens. *)
Definition counted (scores : list string) : bool :=
  (List.length scores =? 1)%nat || (List.length scores =? 2)%nat.

(** The games and tiebreak [e] that a counted score entry stands for. *)
Definition entry_parsed (scores : list string) (e : Z * option Z) : Prop :=
  match scores with
  | [s0] => Py.int s0 = Ok (fst e) /\ snd e = None
  | [s0; s1] =>
      Py.int s0 = Ok (fst e) /\ exists t, Py.int s1 = Ok t /\ snd e = Some t
  | _ => False
  end.

(** Number of occurrences of [c] in [s]. *)
Fixpoint count_char (c : ascii) (s : string) : nat :=
  match s with
  | EmptyString => 0%nat
  | String x r => ((if Ascii.eqb x c then 1 else 0) + count_char c r)%nat
  end.

(** [c] does not occur in [s]. *)
Definition free_of (c : ascii) (s : string) : Prop := count_char c s = 0%nat.

(* ================================================================== *)
(** ** The other functions of [atp.py]

    They can raise three more classes of exceptions, and some of the
    values they build are not well-formed tuples, so their values are
    modelled untyped, as Python has them. *)

Module Exc.
Inductive t : Type :=
| IndexError
| ValueError
| TypeError
| AttributeError
| KeyError.
End Exc.

Inductive outcome (A : Type) : Type :=
| Return (a : A)
| Throw (e : Exc.t).

Arguments Return {A} a.
Arguments Throw {A} e.

Definition and_then {A B : Type} (c : outcome A) (k : A -> outcome B)
  : outcome B :=
  match c with
  | Return a => k a
  | Throw e => Throw e
  end.

Notation "x <~ c ;; k" := (and_then c (fun x => k))
  (at level 61, c at next level, right associativity).

(** The exceptions of the built-ins modelled above, in the wider class. *)
Definition of_result {A : Type} (r : result A) : outcome A :=
  match r with
  | Ok a => Return a
  | Raise IndexError => Throw Exc.IndexError
  | Raise ValueError => Throw Exc.ValueError
  end.

(** A [for] loop whose body may raise any of the exceptions. *)
Fixpoint loop {A S : Type} (body : A -> S -> outcome S)
         (l : list A) (s : S) : outcome S :=
  match l with
  | [] => Return s
  | a :: l' => s' <~ body a s ;; loop body l' s'
  end.

#[local] Unset Elimination Schemes.

(** Python values: [None], ints, strings and the instances of a
    [NamedTuple] class, a value for each field, in the order of the
    fields. *)
Inductive pyval : Type :=
| VNone
| VInt (z : Z)
| VStr (s : string)
| VTuple (fields : list (string * pyval)).

#[local] Set Elimination Schemes.

Module PyMore.

(** [s.replace(c, '')] for a one-character [c]. *)
Fixpoint remove_char (c : ascii) (s : string) : string :=
  match s with
  | EmptyString => EmptyString
  | String x r =>
      if Ascii.eqb x c then remove_char c r else String x (remove_char c r)
  end.

(** [s.rstrip(chars)]. *)
Definition rstrip_chars (chars : list ascii) (s : string) : string :=
  string_of_list_ascii
    (rev (Py.dropwhile (fun x => existsb (Ascii.eqb x) chars)
                       (rev (list_ascii_of_string s)))).



(** The value bound to the keyword [f], if any. *)
Definition keyword (f : string) (keywords : list (string * pyval))
  : option (string * pyval) :=
  find (fun kv => String.eqb f (fst kv)) keywords.

(** A call of a [NamedTuple] class with the fields [fields], none of
    them with a default, on positional and keyword arguments: [TypeError] when there
    are too many positional arguments, when a keyword is no field or
    names a field already given by position, or when a field gets no
    value. *)
Definition namedtuple_new (fields : list string) (positional : list pyval)
           (keywords : list (string * pyval)) : outcome pyval :=
  let by_keyword := skipn (List.length positional) fields in
  if (List.length positional <=? List.length fields)%nat
     && forallb (fun kv => existsb (String.eqb (fst kv)) by_keyword) keywords
     && forallb (fun f => is_not_none (keyword f keywords)) by_keyword
  then Return (VTuple (combine fields positional
                       ++ flat_map (fun f => match keyword f keywords with
                                             | Some kv => [kv]
                                             | None => []
                                             end) by_keyword))
  else Throw Exc.TypeError.

End PyMore.

(** *** [get_singles_rankings] (lines 294-331) *)

Module Rankings.

(** An [li] of the player cell whose class contains [name]. *)
Record name_li : Type := {
  (** [text_content()] *)
  li_text_content : string;
  (** [a/@href] *)
  li_a_href : list string
}.

(** A [tr] of the body of the desktop table. *)
Record table_row : Type := {
  (** [td[contains(@class, "rank")]], the [text_content()] of each *)
  rank_td : list string;
  (** [td[contains(@class, "player")]//li[contains(@class, "name")]] *)
  player_name_li : list name_li;
  (** [td[contains(@class, "age")]], the [text_content()] of each *)
  age_td : list string;
  (** [td[contains(@class, "points")]], the [text_content()] of each *)
  points_td : list string;
  (** [td[contains(@class, "pointsMove")]], the [text_content()] of each *)
  points_move_td : list string;
  (** [td[contains(@class, "tourns")]/text()] *)
  tourns_text : list string;
  (** [td[contains(@class, "drop")]/text()] *)
  drop_text : list string;
  (** [td[contains(@class, "best")]/text()] *)
  best_text : list string
}.

(** The fields of the two classes (lines 8-10 and 21-30). *)
Definition PlayerRef_fields : list string := ["id"; "slug"].

Definition RankingEntry_fields : list string :=
  ["rank"; "player_name"; "player_ref"; "player_age"; "points";
   "points_move"; "tournaments_played"; "dropping"; "next_best"].


(** [int(text) if text != '-' else 0]. *)
Definition int_or_dash (text : string) : outcome Z :=
  if String.eqb text "-" then Return 0 else of_result (Py.int text).

(** The values read from a row at lines 312-326. *)
Record row_values : Type := {
  rank : Z;
  player_name : string;
  player_slug : string;
  player_id : string;
  age : Z;
  points : Z;
  points_move : string;
  tournaments : Z;
  dropping : Z;
  next_best : Z
}.

(** Lines 312-326. *)
Definition read_row (tr : table_row) : outcome row_values :=
  rank0 <~ of_result (Py.index (rank_td tr) 0) ;;
  rank <~ of_result (Py.int rank0) ;;
  player0 <~ of_result (Py.index (player_name_li tr) 0) ;;
  let player_name := Py.strip (li_text_content player0) in
  player_link <~ of_result (Py.index (li_a_href player0) 0) ;;
  player_slug <~ of_result (Py.index (Py.split "/" player_link) 3) ;;
  player_id <~ of_result (Py.index (Py.split "/" player_link) 4) ;;
  age0 <~ of_result (Py.index (age_td tr) 0) ;;
  age <~ of_result (Py.int (Py.strip age0)) ;;
  points0 <~ of_result (Py.index (points_td tr) 0) ;;
  points <~ of_result (Py.int (PyMore.remove_char "," (Py.strip points0))) ;;
  move0 <~ of_result (Py.index (points_move_td tr) 0) ;;
  let points_move := Py.strip move0 in
  tourns0 <~ of_result (Py.index (tourns_text tr) 0) ;;
  tournaments <~ of_result (Py.int (Py.strip tourns0)) ;;
  drop0 <~ of_result (Py.index (drop_text tr) 0) ;;
  dropping <~ int_or_dash (Py.strip drop0) ;;
  best0 <~ of_result (Py.index (best_text tr) 0) ;;
  next_best <~ int_or_dash (Py.strip best0) ;;
  Return {| rank := rank; player_name := player_name;
            player_slug := player_slug; player_id := player_id;
            age := age; points := points; points_move := points_move;
            tournaments := tournaments; dropping := dropping;
            next_best := next_best |}.

(** Lines 327-330: the entry built from the values of a row. *)
Definition make_entry (v : row_values) : outcome pyval :=
  player <~ PyMore.namedtuple_new PlayerRef_fields
              [VStr (player_id v); VStr (player_slug v); VStr (player_name v)]
              [] ;;
  PyMore.namedtuple_new RankingEntry_fields []
    [("rank", VInt (rank v)); ("player", player);
     ("player_age", VInt (age v)); ("points", VInt (points v));
     ("points_move", VStr (points_move v));
     ("tournaments_played", VInt (tournaments v));
     ("dropping", VInt (dropping v)); ("next_best", VInt (next_best v))].

(** Lines 309-330: the body of the loop over the rows. *)
Definition row_body (tr : table_row) (entries : list pyval)
  : outcome (list pyval) :=
  match rank_td tr with
  | [] => Return entries
  | _ :: _ =>
      v <~ read_row tr ;;
      entry <~ make_entry v ;;
      Return (entries ++ [entry])
  end.

(** Lines 306-331, on the rows
    [.//table[contains(@class, "desktop-table")]/tbody/tr] of the page. *)
Definition get_singles_rankings (rows : list table_row) : outcome (list pyval) :=
  loop row_body rows [].

End Rankings.

(** *** Sample rows of the rankings table *)

Module SampleRankings.

Definition a_row (rank : list string) : Rankings.table_row :=
  {| Rankings.rank_td := rank;
     Rankings.player_name_li :=
       [{| Rankings.li_text_content := " Jannik Sinner ";
           Rankings.li_a_href := ["/en/players/jannik-sinner/s0ag/overview"] |}];
     Rankings.age_td := [" 23 "];
     Rankings.points_td := [" 11,830 "; "+50"];
     Rankings.points_move_td := ["+50"];
     Rankings.tourns_text := [" 17 "];
     Rankings.drop_text := [" - "];
     Rankings.best_text := [" 45 "] |}.

Definition header_row : Rankings.table_row := a_row [].

Definition first_row : Rankings.table_row := a_row ["1"].

Definition first_row_values : Rankings.row_values :=
  {| Rankings.rank := 1; Rankings.player_name := "Jannik Sinner";
     Rankings.player_slug := "jannik-sinner"; Rankings.player_id := "s0ag";
     Rankings.age := 23; Rankings.points := 11830;
     Rankings.points_move := "+50"; Rankings.tournaments := 17;
     Rankings.dropping := 0; Rankings.next_best := 45 |}.

End SampleRankings.

(** *** [get_tournaments] (lines 129-178) *)

Module Tournaments.

(** [TournamentRef] as line 172 builds it: the id is an [int]. *)
Module Ref.
Record t : Type := mk { id : Z; slug : string }.
End Ref.

Module TournamentEvent.
Record t : Type := mk {
  tournament_name : string;
  tournament_ref : Ref.t;
  location : string;
  date : string;
  team_winner : option string;
  singles_winner : option PlayerRef.t;
  doubles_winners : option (PlayerRef.t * PlayerRef.t)
}.
End TournamentEvent.

(** A [dl class="winner"]. *)
Record winner_dl : Type := {
  (** [dt/text()] *)
  dt_text : list string;
  (** [dd/text()] *)
  dd_text : list string;
  (** [dd/a/@href] *)
  dd_a_href : list string;
  (** [dd/a/text()] *)
  dd_a_text : list string
}.

(** An [li] of the tournament list. *)
Record tournament_li : Type := {
  (** [.//a[@class="tournament__profile"]], the [href] attribute of each
      element, [None] where it has none *)
  profile_a : list (option string);
  (** [.//div[@class="top"]/span[@class="name"]], their [text_content()] *)
  name_span : list string;
  (** [.//div[@class="bottom"]/span[@class="venue"]], likewise *)
  venue_span : list string;
  (** [.//div[@class="bottom"]/span[@class="Date"]], likewise *)
  date_span : list string;
  (** [.//dl[@class="winner"]] *)
  winner_dls : list winner_dl
}.

(** The three variables of line 145, the state of the loop over the
    winner lists of a tournament. *)
Record winners : Type := {
  team_winner : option string;
  singles_winner : option PlayerRef.t;
  doubles_winners : option (PlayerRef.t * PlayerRef.t)
}.

Definition no_winners : winners :=
  {| team_winner := None; singles_winner := None; doubles_winners := None |}.

(** [PlayerRef(id=href.split('/')[4], slug=href.split('/')[3])]. *)
Definition player_of_href (href : string) : outcome PlayerRef.t :=
  id <~ of_result (Py.index (Py.split "/" href) 4) ;;
  slug <~ of_result (Py.index (Py.split "/" href) 3) ;;
  Return (PlayerRef.mk id slug).

(** Lines 147-170: the body of the loop over the winner lists. *)
Definition winner_body (w : winner_dl) (st : winners) : outcome winners :=
  title <~ of_result (Py.index (dt_text w) 0) ;;
  if String.eqb title "Team Winner" then
    match dd_text w with
    | [w_name] =>
        Return {| team_winner := Some (Py.strip w_name);
                  singles_winner := singles_winner st;
                  doubles_winners := doubles_winners st |}
    | _ => Return st
    end
  else if String.eqb title "Singles Winner" then
    match dd_a_text w with
    | [_] =>
        w_href <~ of_result (Py.index (dd_a_href w) 0) ;;
        p <~ player_of_href w_href ;;
        Return {| team_winner := team_winner st;
                  singles_winner := Some p;
                  doubles_winners := doubles_winners st |}
    | _ => Return st
    end
  else if String.eqb title "Doubles Winners" then
    match dd_a_text w with
    | [_; _] =>
        w_href0 <~ of_result (Py.index (dd_a_href w) 0) ;;
        w1_ref <~ player_of_href w_href0 ;;
        w_href1 <~ of_result (Py.index (dd_a_href w) 1) ;;
        w2_ref <~ player_of_href w_href1 ;;
        Return {| team_winner := team_winner st;
                  singles_winner := singles_winner st;
                  doubles_winners := Some (w1_ref, w2_ref) |}
    | _ => Return st
    end
  else Return st.

(** Lines 139-177: the event of one [li]. *)
Definition li_event (li : tournament_li) : outcome TournamentEvent.t :=
  tournament_href <~ of_result (Py.index (profile_a li) 0) ;;
  name0 <~ of_result (Py.index (name_span li) 0) ;;
  let name := Py.strip name0 in
  venue0 <~ of_result (Py.index (venue_span li) 0) ;;
  let location := PyMore.rstrip_chars [" "%char; "|"%char] (Py.strip venue0) in
  date0 <~ of_result (Py.index (date_span li) 0) ;;
  let date := Py.strip date0 in
  w <~ loop winner_body (winner_dls li) no_winners ;;
  href <~ match tournament_href with
          | Some h => Return h
          | None => Throw Exc.AttributeError
          end ;;
  id0 <~ of_result (Py.index (Py.split "/" href) 4) ;;
  id <~ of_result (Py.int id0) ;;
  slug <~ of_result (Py.index (Py.split "/" href) 3) ;;
  Return (TournamentEvent.mk name (Ref.mk id slug) location date
            (team_winner w) (singles_winner w) (doubles_winners w)).

(** Lines 138-177: the body of the loop over the [li]. *)
Definition li_body (li : tournament_li) (entries : list TournamentEvent.t)
  : outcome (list TournamentEvent.t) :=
  ev <~ li_event li ;;
  Return (entries ++ [ev]).

(** Lines 135-178, on the [ul/li] of each node of
    [//div[contains(@class, "tournament-list")]]. *)
Definition get_tournaments (tournament_lists : list (list tournament_li))
  : outcome (list TournamentEvent.t) :=
  tournament_list <~ of_result (Py.index tournament_lists 0) ;;
  loop li_body tournament_list [].

End Tournaments.

(** The first element of [l], if any, does not satisfy [p]. *)
Definition starts_clean (p : ascii -> bool) (l : list ascii) : Prop :=
  match l with
  | c :: _ => p c = false
  | [] => True
  end.

(** Neither end of [s] satisfies [p]. *)
Definition clean_ends (p : ascii -> bool) (s : string) : Prop :=
  starts_clean p (list_ascii_of_string s) /\
  starts_clean p (rev (list_ascii_of_string s)).

(** *** A sample tournament list *)

Module SampleTournaments.

Definition hong_kong : Tournaments.tournament_li :=
  {| Tournaments.profile_a := [Some "/en/tournaments/hong-kong/336/overview"];
     Tournaments.name_span := [" Hong Kong Open "];
     Tournaments.venue_span := [" Hong Kong, China | "];
     Tournaments.date_span := [" 1 - 7 January, 2024 "];
     Tournaments.winner_dls :=
       [{| Tournaments.dt_text := ["Singles Winner"];
           Tournaments.dd_text := [];
           Tournaments.dd_a_href := ["/en/players/andrey-rublev/re44/overview"];
           Tournaments.dd_a_text := ["Andrey Rublev"] |};
        {| Tournaments.dt_text := ["Doubles Winners"];
           Tournaments.dd_text := [];
           Tournaments.dd_a_href :=
             ["/en/players/marcelo-arevalo/ad81/overview";
              "/en/players/mate-pavic/pc42/overview"];
           Tournaments.dd_a_text := ["Marcelo Arevalo"; "Mate Pavic"] |}] |}.

Definition hong_kong_event : Tournaments.TournamentEvent.t :=
  Tournaments.TournamentEvent.mk "Hong Kong Open"
    (Tournaments.Ref.mk 336 "hong-kong") "Hong Kong, China" "1 - 7 January, 2024"
    None (Some (PlayerRef.mk "re44" "andrey-rublev"))
    (Some (PlayerRef.mk "ad81" "marcelo-arevalo",
           PlayerRef.mk "pc42" "mate-pavic")).

End SampleTournaments.

(** The winners [w] were all read from lists of [dls] of their own title. *)
Definition winners_from (dls : list Tournaments.winner_dl)
           (w : Tournaments.winners) : Prop :=
  (forall n,
     Tournaments.team_winner w = Some n ->
     exists dl rest t,
       In dl dls /\ Tournaments.dt_text dl = "Team Winner" :: rest /\
       Tournaments.dd_text dl = [t] /\ n = Py.strip t) /\
  (forall p,
     Tournaments.singles_winner w = Some p ->
     exists dl rest name href hrefs,
       In dl dls /\ Tournaments.dt_text dl = "Singles Winner" :: rest /\
       Tournaments.dd_a_text dl = [name] /\
       Tournaments.dd_a_href dl = href :: hrefs /\
       Tournaments.player_of_href href = Return p) /\
  (forall p q,
     Tournaments.doubles_winners w = Some (p, q) ->
     exists dl rest name1 name2 href1 href2 hrefs,
       In dl dls /\ Tournaments.dt_text dl = "Doubles Winners" :: rest /\
       Tournaments.dd_a_text dl = [name1; name2] /\
       Tournaments.dd_a_href dl = href1 :: href2 :: hrefs /\
       Tournaments.player_of_href href1 = Return p /\
       Tournaments.player_of_href href2 = Return q).

(** *** [get_match_singles_stats] (lines 262-277) *)

Module MatchStats.

#[local] Unset Elimination Schemes.

(** What [response.json()] decodes.  A number is kept as its text; an
    object is the decoded [dict], a key at most once. *)
Inductive json : Type :=
| JNull
| JBool (b : bool)
| JNumber (text : string)
| JString (s : string)
| JArray (items : list json)
| JObject (members : list (string * json)).

#[local] Set Elimination Schemes.

(** The value of the key [k] in a [dict]. *)
Fixpoint member (k : string) (members : list (string * json)) : option json :=
  match members with
  | [] => None
  | (k', v) :: members' => if String.eqb k k' then Some v else member k members'
  end.

(** [v[k]] for a string [k]: [KeyError] on a [dict] without the key,
    [TypeError] on every value that is not a [dict]. *)
Definition subscript (v : json) (k : string) : outcome json :=
  match v with
  | JObject members =>
      match member k members with
      | Some x => Return x
      | None => Throw Exc.KeyError
      end
  | _ => Throw Exc.TypeError
  end.

(** [v.split(sep)]: only a string has the method. *)
Definition split_method (v : json) (sep : ascii) : outcome (list string) :=
  match v with
  | JString s => Return (Py.split sep s)
  | _ => Throw Exc.AttributeError
  end.

(** [s * n] on a string. *)
Fixpoint repeat_str (s : string) (n : nat) : string :=
  match n with
  | O => EmptyString
  | S n' => (s ++ repeat_str s n')%string
  end.

(** The function, on the decoded body of the response.  The names of the
    local variables are those of the source; it ends in [pass] and so
    returns [None]. *)
Definition get_match_singles_stats (data : json) : outcome pyval :=
  m <~ subscript data "Match" ;;
  duration <~ subscript m "MatchTimeTotal" ;;
  parts <~ split_method duration ":" ;;
  match parts with
  | [dur_hrs; dur_mins; _] =>
      let duration := (repeat_str dur_hrs 60 ++ dur_mins)%string in
      m <~ subscript data "Match" ;;
      sets_played <~ subscript m "NumberOfSets" ;;
      m <~ subscript data "Match" ;;
      winner_id <~ subscript m "Winner" ;;
      m <~ subscript data "Match" ;;
      player <~ subscript m "PlayerTeam" ;;
      m <~ subscript data "Match" ;;
      opponent <~ subscript m "OpponentTeam" ;;
      Return VNone
  | _ => Throw Exc.ValueError
  end.

End MatchStats.

(** *** [get_ranking_regions] (lines 285-292) *)

Module Regions.

(** An [a] of the region dropdown. *)
Record region_a : Type := {
  (** [text_content()] *)
  a_text_content : string;
  (** [get('data-value')]: [None] without the attribute *)
  a_data_value : option string
}.

(** [d[k] = v] on a [dict], kept in the order of first insertion. *)
Fixpoint dict_set {V : Type} (k : string) (v : V) (d : list (string * V))
  : list (string * V) :=
  match d with
  | [] => [(k, v)]
  | (k', v') :: d' =>
      if String.eqb k k' then (k, v) :: d' else (k', v') :: dict_set k v d'
  end.

(** [d.get(k)]. *)
Fixpoint dict_get {V : Type} (k : string) (d : list (string * V)) : option V :=
  match d with
  | [] => None
  | (k', v) :: d' => if String.eqb k k' then Some v else dict_get k d'
  end.

(** The dict comprehension of lines 289-292. *)
Definition regions_of (anchors : list region_a)
  : list (string * option string) :=
  fold_left (fun d region =>
               dict_set (Py.strip (a_text_content region))
                        (a_data_value region) d)
            anchors [].

(** The function, on the [li/a] of each node of
    [//div[@data-key="Region"]/*[@class="dropdown"]/ul]. *)
Definition get_ranking_regions (dropdowns : list (list region_a))
  : outcome (list (string * option string)) :=
  dropdown <~ of_result (Py.index dropdowns 0) ;;
  Return (regions_of dropdown).

End Regions.

(** *** Sample responses *)

Module SampleStats.

Definition match_object (time : MatchStats.json) : MatchStats.json :=
  MatchStats.JObject
    [("Match",
      MatchStats.JObject
        [("MatchTimeTotal", time);
         ("NumberOfSets", MatchStats.JNumber "2");
         ("Winner", MatchStats.JString "re44");
         ("PlayerTeam", MatchStats.JObject []);
         ("OpponentTeam", MatchStats.JObject [])])].

End SampleStats.

(** *** A sample page of two days *)

Module SampleDays.


End SampleDays.

(* ================================================================== *)
(** ** Reasoning about [result] and loops *)

Lemma bind_Ok {A B : Type} (c : result A) (k : A -> result B) (b : B) :
  bind c k = Ok b -> exists a, c = Ok a /\ k a = Ok b.
Proof.
  destruct c as [a|e]; simpl; intros H; [eauto | discriminate].
Qed.

(** Splits every successful [bind] among the hypotheses. *)
Ltac binds :=
  repeat match goal with
         | H : bind ?c _ = Ok _ |- _ =>
             let a := fresh "x" in
             let E := fresh "E" in
             let H' := fresh in
             destruct (bind_Ok _ _ _ H) as (a & E & H'); clear H;
             rename H' into H; cbv beta in H
         | H : Raise _ = Ok _ |- _ => discriminate H
         end.

Section ForEach.
Context {A S : Type} (body : A -> S -> result S).

Lemma for_each_app (l1 l2 : list A) (s : S) :
  for_each body (l1 ++ l2) s =
  (s' <- for_each body l1 s ;; for_each body l2 s').
Proof.
  revert s; induction l1 as [|a l1 IH]; intros s; simpl; [reflexivity|].
  destruct (body a s); simpl; auto.
Qed.

(** An exception in one iteration leaves the loop. *)
Lemma for_each_raise (l1 l2 : list A) (a : A) (s s1 : S) (e : exn) :
  for_each body l1 s = Ok s1 -> body a s1 = Raise e ->
  for_each body (l1 ++ a :: l2) s = Raise e.
Proof.
  intros H1 H2. rewrite for_each_app, H1. simpl. rewrite H2. reflexivity.
Qed.

(** Iterations whose bodies agree give the same loop. *)
Lemma for_each_ext_at (l1 l2 : list A) (a a' : A) (s : S) :
  (forall t, body a t = body a' t) ->
  for_each body (l1 ++ a :: l2) s = for_each body (l1 ++ a' :: l2) s.
Proof.
  intros H. rewrite !for_each_app. destruct (for_each body l1 s); simpl; auto.
  rewrite H. reflexivity.
Qed.

(** An iteration that leaves the state alone can be removed. *)
Lemma for_each_skip (l1 l2 : list A) (a : A) (s : S) :
  (forall t, body a t = Ok t) ->
  for_each body (l1 ++ a :: l2) s = for_each body (l1 ++ l2) s.
Proof.
  intros H. rewrite !for_each_app. destruct (for_each body l1 s); simpl; auto.
  rewrite H. reflexivity.
Qed.
End ForEach.

Lemma len_app {A : Type} (l1 l2 : list A) : len (l1 ++ l2) = len l1 + len l2.
Proof. unfold len. rewrite length_app. lia. Qed.

Lemma len_nonneg {A : Type} (l : list A) : 0 <= len l.
Proof. unfold len. lia. Qed.

Lemma enumerate_from_app {A : Type} (l1 l2 : list A) (i : Z) :
  enumerate_from i (l1 ++ l2) =
  enumerate_from i l1 ++ enumerate_from (i + len l1) l2.
Proof.
  revert i; induction l1 as [|a l1 IH]; intros i; simpl.
  - replace (i + len []) with i by (unfold len; simpl; lia). reflexivity.
  - rewrite IH. replace (i + 1 + len l1) with (i + len (a :: l1)); [reflexivity|].
    unfold len; simpl List.length. lia.
Qed.

(** *** Python indexing *)

Lemma index_pair {A : Type} (x y : A) (i : Z) :
  i = 0 \/ i = 1 ->
  Py.index [x; y] i = Ok (if i =? 0 then x else y) /\
  Py.index [x; y] (1 - i) = Ok (if i =? 0 then y else x).
Proof. intros [-> | ->]; split; reflexivity. Qed.

Lemma index_nonneg {A : Type} (l : list A) (k : Z) :
  0 <= k < len l -> exists x, Py.index l k = Ok x /\ nth_error l (Z.to_nat k) = Some x.
Proof.
  unfold len, Py.index. intros H.
  destruct (Z.ltb_spec k 0); [lia|].
  destruct (Z.leb_spec 0 k); [|lia].
  destruct (Z.ltb_spec k (Z.of_nat (List.length l))); [|lia]. simpl.
  destruct (nth_error l (Z.to_nat k)) as [x|] eqn:E; eauto.
  apply nth_error_None in E. lia.
Qed.

(* ================================================================== *)
(** ** What the loop over the competitor blocks computes *)

(** One score item adds to [sets] and [tiebreaks] together, at most one
    entry. *)
Lemma score_item_lengths (scores : list string) sets tbs sets' tbs' :
  score_item_body scores (sets, tbs) = Ok (sets', tbs') ->
  len sets' - len sets = len tbs' - len tbs /\
  len sets <= len sets' <= len sets + 1.
Proof.
  unfold score_item_body.
  destruct scores as [|s0 [|s1 [|s2 rest]]]; intros H; binds;
    injection H as <- <-; rewrite ?len_app; unfold len; simpl; lia.
Qed.

(** The score loop of one block keeps [sets] and [tiebreaks] of one length
    and adds at most one entry per score item. *)
Lemma score_loop_lengths (items : list (list string)) :
  forall sets tbs sets' tbs',
    for_each score_item_body items (sets, tbs) = Ok (sets', tbs') ->
    len sets' - len sets = len tbs' - len tbs /\
    len sets <= len sets' <= len sets + len items.
Proof.
  induction items as [|scores items IH]; simpl; intros sets tbs sets' tbs' H.
  - injection H as <- <-. unfold len; simpl; lia.
  - binds. destruct x as [s1 t1].
    apply IH in H. apply score_item_lengths in E.
    change (len (scores :: items)) with (Z.of_nat (S (List.length items))).
    unfold len in *. lia.
Qed.

Lemma competitors_loop (items : list stats_item) :
  forall i st st',
    for_each stats_item_body (enumerate_from i items) st = Ok st' ->
    exists ps ss ts,
      scanned items ps ss ts /\
      players st' = players st ++ ps /\
      player_sets st' = player_sets st ++ ss /\
      player_tbs st' = player_tbs st ++ ts /\
      winner_idx st' = last_marked i items (winner_idx st).
Proof.
  induction items as [|b items IH]; simpl; intros i st st' H.
  - injection H as <-. exists [], [], []. rewrite !app_nil_r.
    repeat split; constructor.
  - binds. unfold stats_item_body in E. binds.
    destruct x1 as [sets tbs]. injection E as <-.
    apply IH in H as (ps & ss & ts & Hsc & Hp & Hs & Ht & Hw). simpl in *.
    exists (x0 :: ps), (sets :: ss), (tbs :: ts).
    rewrite Hp, Hs, Ht, Hw, <- !app_assoc. simpl.
    repeat split; auto. constructor; auto.
Qed.

Lemma scanned_lengths items ps ss ts :
  scanned items ps ss ts ->
  List.length ps = List.length items /\
  List.length ss = List.length items /\
  List.length ts = List.length items.
Proof. induction 1; simpl; lia. Qed.

Lemma last_marked_range (items : list stats_item) :
  forall i w v,
    last_marked i items w = Some v ->
    w = Some v \/ i <= v < i + len items.
Proof.
  induction items as [|b items IH]; simpl; intros i w v H; [auto|].
  apply IH in H. unfold len in *. simpl List.length.
  destruct H as [H|H]; [|lia].
  destruct (0 <? winner_divs b)%nat; [injection H as <-; lia | auto].
Qed.

Lemma last_marked_none (items : list stats_item) :
  forall i,
    (forall b, In b items -> winner_divs b = 0%nat) ->
    last_marked i items None = None.
Proof.
  induction items as [|b items IH]; simpl; intros i H; [reflexivity|].
  rewrite (H b) by auto. simpl. apply IH. auto.
Qed.

(* ================================================================== *)
(** ** What the loop over the aligned sets computes *)

Lemma counts_unique {A : Type} (P : A -> Prop) (l : list A) :
  forall n n', counts P l n -> counts P l n' -> n = n'.
Proof.
  induction l as [|a l IH]; intros n n' H H'; inversion H; inversion H'; subst;
    try reflexivity; try contradiction.
  - f_equal. eapply IH; eauto.
  - eapply IH; eauto.
Qed.

Lemma zip3_aligned (wsets lsets : list Z) (wtbs : list (option Z)) :
  zip3 wsets lsets wtbs = aligned wsets lsets wtbs.
Proof.
  unfold aligned. revert lsets wtbs.
  induction wsets as [|w ws IH]; intros [|l ls] [|t ts]; simpl;
    rewrite ?IH; reflexivity.
Qed.

Lemma len_zip3 {A B C : Type} (a : list A) (b : list B) (c : list C) :
  len (zip3 a b c) = Z.min (len a) (Z.min (len b) (len c)).
Proof.
  revert b c; induction a as [|x a IH]; intros [|y b] [|z c];
    unfold len in *; simpl List.length; try lia.
  specialize (IH b c). lia.
Qed.

Lemma zip3_firstn {A B C : Type} (a : list A) (b : list B) (c : list C) :
  zip3 (firstn (List.length (zip3 a b c)) a)
       (firstn (List.length (zip3 a b c)) b)
       (firstn (List.length (zip3 a b c)) c) = zip3 a b c.
Proof.
  revert b c; induction a as [|x a IH]; intros [|y b] [|z c]; simpl;
    try reflexivity.
  rewrite IH. reflexivity.
Qed.

Lemma won_by_victor_test (wset lset : Z) (wtbs : option Z) :
  (wset >=? lset) || is_not_none wtbs = true <-> won_by_victor (wset, lset, wtbs).
Proof.
  unfold won_by_victor. rewrite orb_true_iff, Z.geb_le.
  destruct wtbs; simpl; intuition congruence.
Qed.

(** The loop counts the aligned sets and, among them, those that the rule
    gives to the victor. *)
Lemma aligned_loop (l : list (Z * Z * option Z)) :
  forall n k n' k',
    fold_left aligned_set_body l (n, k) = (n', k') ->
    n' = n + len l /\ counts won_by_victor l (k' - k).
Proof.
  induction l as [|[[w ls] tb] l IH]; simpl; intros n k n' k' H.
  - injection H as <- <-. split; [unfold len; simpl; lia|].
    replace (k - k) with 0 by lia. constructor.
  - apply IH in H as [Hn Hk]. split.
    + unfold len in *. simpl List.length. lia.
    + destruct ((w >=? ls) || is_not_none tb) eqn:E; simpl in Hk.
      * replace (k' - k) with (k' - (k + 1) + 1) by lia.
        apply counts_yes; [apply won_by_victor_test; exact E | exact Hk].
      * replace (k' - k) with (k' - (k + 0)) by lia.
        apply counts_no; [|exact Hk].
        intros Hw. apply won_by_victor_test in Hw. congruence.
Qed.

(* ================================================================== *)
(** ** One match *)

Lemma scan_match_Some (m : match_block) (a : alignment) :
  scan_match m = Ok (Some a) ->
  exists b0 b1 p0 p1 s0 s1 t0 t1, scan_facts m a b0 b1 p0 p1 s0 s1 t0 t1.
Proof.
  unfold scan_match. intros H. binds.
  destruct (len (players x0) =? 2) eqn:Elen; [|discriminate].
  destruct (winner_idx x0) as [w|] eqn:Ew; [|discriminate].
  binds.
  destruct (fold_left _ _ _) as [n won] eqn:Eloop. injection H as <-.
  unfold enumerate in E0.
  apply competitors_loop in E0 as (ps & ss & ts & Hsc & Hp & Hs & Ht & Hw).
  destruct x0 as [pl sl tl wi].
  cbn [players player_sets player_tbs winner_idx no_competitors app] in *.
  subst pl sl tl wi.
  apply Z.eqb_eq in Elen. unfold len in Elen.
  destruct (stats_items m) as [|b0 [|b1 [|b2 rest]]] eqn:Eitems;
    inversion Hsc as [|? ? p0 ? s0 ? t0 ? Hp0 Hs0 Hsc0]; subst;
    try (simpl in Elen; lia).
  - inversion Hsc0; subst. simpl in Elen; lia.
  - inversion Hsc0 as [|? ? p1 ? s1 ? t1 ? Hp1 Hs1 Hsc1]; subst.
    inversion Hsc1; subst.
    assert (w = 0 \/ w = 1) as Hv.
    { apply last_marked_range in Ew as [Hw|Hw]; [discriminate|].
      unfold len in Hw; simpl in Hw; lia. }
    exists b0, b1, p0, p1, s0, s1, t0, t1.
    destruct (index_pair s0 s1 w Hv) as [I1 I2].
    destruct (index_pair t0 t1 w Hv) as [I3 _].
    rewrite I1 in E1. rewrite I2 in E2. rewrite I3 in E3.
    injection E1 as <-. injection E2 as <-. injection E3 as <-.
    constructor; cbn; auto.
  - inversion Hsc0 as [|? ? p1 ? s1 ? t1 ? Hp1 Hs1 Hsc1]; subst.
    inversion Hsc1; subst. simpl in Elen; lia.
Qed.

(** The facts about the aligned length that the later proofs use. *)
Lemma scan_facts_lengths m a b0 b1 p0 p1 s0 s1 t0 t1 :
  scan_facts m a b0 b1 p0 p1 s0 s1 t0 t1 ->
  len s0 = len t0 /\ len s1 = len t1 /\
  len s0 <= len (score_items b0) /\ len s1 <= len (score_items b1) /\
  sets_played a = Z.min (len s0) (len s1) /\
  counts won_by_victor
         (aligned (pick (victor a) s0 s1) (pick (victor a) s1 s0)
                  (pick (victor a) t0 t1))
         (winner_won_sets a).
Proof.
  intros F.
  pose proof (score_loop_lengths _ _ _ _ _ (sf_s0 _ _ _ _ _ _ _ _ _ _ F)) as L0.
  pose proof (score_loop_lengths _ _ _ _ _ (sf_s1 _ _ _ _ _ _ _ _ _ _ F)) as L1.
  pose proof (aligned_loop _ _ _ _ _ (sf_loop _ _ _ _ _ _ _ _ _ _ F)) as [Hn Hk].
  rewrite len_zip3 in Hn. rewrite zip3_aligned, Z.sub_0_r in Hk.
  change (len (@nil Z)) with 0 in *. change (len (@nil (option Z))) with 0 in *.
  repeat split; try lia; auto.
  destruct (sf_victor _ _ _ _ _ _ _ _ _ _ F) as [V|V]; rewrite V in Hn;
    unfold pick in Hn; simpl in Hn; lia.
Qed.

(** *** The slots of the record *)

Lemma set_slot_Ok rows who k n v :
  set_slot rows who k n = Ok v ->
  (v = None <-> n < k + 1) /\
  (forall g, v = Some g ->
     exists row, Py.index rows who = Ok row /\ Py.index row k = Ok g).
Proof.
  unfold set_slot. destruct (Z.geb_spec n (k + 1)) as [Hge|Hlt]; intros H.
  - binds. injection H as <-. split.
    + split; [discriminate | lia].
    + intros g [= <-]. eauto.
  - injection H as <-. split; [tauto | discriminate].
Qed.

Lemma tb_slot_Ok rows who k n v :
  tb_slot rows who k n = Ok v ->
  (n < k + 1 -> v = None) /\
  (k + 1 <= n ->
     exists row, Py.index rows who = Ok row /\ Py.index row k = Ok v).
Proof.
  unfold tb_slot. destruct (Z.geb_spec n (k + 1)) as [Hge|Hlt]; intros H.
  - binds. split; [lia | eauto].
  - injection H as <-. split; [reflexivity | lia].
Qed.

Lemma set_slot_total rows who k n row :
  Py.index rows who = Ok row -> 0 <= k -> n <= len row ->
  exists v, set_slot rows who k n = Ok v.
Proof.
  unfold set_slot. intros Hrow Hk Hn. rewrite Hrow. simpl.
  destruct (Z.geb_spec n (k + 1)); [|eauto].
  destruct (index_nonneg row k) as (x & -> & _); [lia|]. simpl. eauto.
Qed.

Lemma tb_slot_total rows who k n row :
  Py.index rows who = Ok row -> 0 <= k -> n <= len row ->
  exists v, tb_slot rows who k n = Ok v.
Proof.
  unfold tb_slot. intros Hrow Hk Hn. rewrite Hrow. simpl.
  destruct (Z.geb_spec n (k + 1)); [|eauto].
  destruct (index_nonneg row k) as (x & -> & _); [lia|]. eauto.
Qed.

(** What a record built at line 234 holds. *)
Lemma make_entry_Ok match_ref date a r :
  make_entry match_ref date a = Ok r ->
  MatchResult.match_ref r = match_ref /\
  MatchResult.date r = date /\
  MatchResult.duration r = duration a /\
  MatchResult.best_of r = (if winner_won_sets a =? 2 then 3 else 5) /\
  Py.index (players (blocks a)) (victor a) = Ok (MatchResult.winner r) /\
  Py.index (players (blocks a)) (1 - victor a) = Ok (MatchResult.loser r) /\
  forall i, 1 <= i <= 5 ->
    set_slot (player_sets (blocks a)) (victor a) (i - 1) (sets_played a)
      = Ok (winner_set r i) /\
    tb_slot (player_tbs (blocks a)) (victor a) (i - 1) (sets_played a)
      = Ok (winner_tb r i) /\
    set_slot (player_sets (blocks a)) (1 - victor a) (i - 1) (sets_played a)
      = Ok (loser_set r i) /\
    tb_slot (player_tbs (blocks a)) (1 - victor a) (i - 1) (sets_played a)
      = Ok (loser_tb r i).
Proof.
  unfold make_entry. intros H. binds. injection H as <-. cbn.
  repeat (split; [solve [auto]|]).
  intros i Hi.
  assert (i = 1 \/ i = 2 \/ i = 3 \/ i = 4 \/ i = 5) as Hc by lia.
  destruct Hc as [-> | [-> | [-> | [-> | ->]]]]; cbn; auto.
Qed.

Ltac slot_total lem :=
  match goal with
  | |- context [bind (?f ?rows ?who ?k ?n) _] =>
      let v := fresh "v" in
      let E := fresh "E" in
      edestruct (lem rows who k n) as (v & E);
      [reflexivity | lia | lia | rewrite E; cbn [bind]]
  end.

(** A match that reaches line 234 always yields a record: the indexing of
    lines 236-256 stays within the lists. *)
Lemma make_entry_total m a b0 b1 p0 p1 s0 s1 t0 t1 match_ref date :
  scan_facts m a b0 b1 p0 p1 s0 s1 t0 t1 ->
  exists r, make_entry match_ref date a = Ok r.
Proof.
  intros F.
  destruct (scan_facts_lengths _ _ _ _ _ _ _ _ _ _ F)
    as (L0 & L1 & _ & _ & Hn & _).
  destruct F as [_ _ _ _ _ _ Hp Hs Ht Hv _ _].
  destruct a as [dur st w n won]. cbn in *.
  unfold make_entry; cbn [blocks victor sets_played winner_won_sets duration].
  rewrite Hp, Hs, Ht.
  destruct Hv; subst w; cbn [bind Py.index List.length Z.of_nat Z.ltb Z.leb
    Z.compare andb nth_error Z.to_nat Z.sub Z.add Z.opp Pos.compare
    Pos.compare_cont Pos.of_succ_nat Pos.succ Pos.to_nat Pos.iter_op Nat.add
    Z.pos_sub];
    repeat first [slot_total set_slot_total | slot_total tb_slot_total];
    simpl; eauto.
Qed.

(* ================================================================== *)
(** ** The loops over matches and days *)

Lemma match_body_Ok match_ref date m entries entries' :
  match_body match_ref date m entries = Ok entries' ->
  (scan_match m = Ok None /\ entries' = entries) \/
  (exists a r, scan_match m = Ok (Some a) /\
               make_entry match_ref date a = Ok r /\
               entries' = entries ++ [r]).
Proof.
  unfold match_body. intros H. binds. destruct x as [a|].
  - binds. injection H as <-. right. eauto.
  - injection H as <-. left. auto.
Qed.

Lemma match_loop_entries match_ref date (ms : list match_block) :
  forall entries entries',
    for_each (match_body match_ref date) ms entries = Ok entries' ->
    exists new,
      entries' = entries ++ new /\
      forall r, In r new ->
        exists m a, In m ms /\ scan_match m = Ok (Some a) /\
                    make_entry match_ref date a = Ok r.
Proof.
  induction ms as [|m ms IH]; simpl; intros entries entries' H.
  - injection H as <-. exists []. rewrite app_nil_r. split; [auto | intros ? []].
  - binds. apply IH in H as (new & -> & Hnew).
    apply match_body_Ok in E as [[Hs ->] | (a & r & Hs & Hr & ->)].
    + exists new. split; [auto|]. intros r Hin.
      destruct (Hnew r Hin) as (m' & a & ? & ? & ?). exists m', a. auto.
    + exists (r :: new). rewrite <- app_assoc. split; [auto|].
      intros r' [<- | Hin]; [exists m, a; auto|].
      destruct (Hnew r' Hin) as (m' & a' & ? & ? & ?). exists m', a'. auto.
Qed.

Lemma day_loop_entries tournament year (days : list accordion_item) :
  forall entries entries',
    for_each (day_body tournament year) days entries = Ok entries' ->
    exists new,
      entries' = entries ++ new /\
      forall r, In r new ->
        exists tday hd m a,
          In tday days /\ day_header tournament year tday = Ok hd /\
          In m (matches tday) /\ scan_match m = Ok (Some a) /\
          make_entry (fst hd) (snd hd) a = Ok r.
Proof.
  induction days as [|tday days IH]; simpl; intros entries entries' H.
  - injection H as <-. exists []. rewrite app_nil_r. split; [auto | intros ? []].
  - binds. apply IH in H as (new & -> & Hnew).
    unfold day_body in E. binds.
    apply match_loop_entries in E as (new0 & -> & Hnew0).
    exists (new0 ++ new). rewrite app_assoc. split; [auto|].
    intros r Hin. apply in_app_or in Hin as [Hin|Hin].
    + destruct (Hnew0 r Hin) as (m & a & ? & ? & ?).
      exists tday, x0, m, a. auto.
    + destruct (Hnew r Hin) as (td & hd & m & a & ? & ? & ? & ? & ?).
      exists td, hd, m, a. auto.
Qed.

(** Every record of the returned list was built from a match block of the
    page. *)
Lemma entries_emitted tournament year doc entries r :
  get_tournament_singles_results tournament year doc = Ok entries ->
  In r entries ->
  exists m a, emitted_from tournament year doc r m a.
Proof.
  unfold get_tournament_singles_results. intros H Hin. binds.
  apply day_loop_entries in H as (new & -> & Hnew).
  destruct (Hnew r Hin) as (td & hd & m & a & ? & ? & ? & ? & ?).
  exists m, a, x, td, hd. repeat split; assumption.
Qed.

(** *** How an exception leaves the function *)

Lemma day_raise_aborts tournament year doc tday entries e :
  reaches_day tournament year doc tday entries ->
  day_body tournament year tday entries = Raise e ->
  get_tournament_singles_results tournament year doc = Raise e.
Proof.
  intros (pre & post & Hacc & Hpre) Hday.
  unfold get_tournament_singles_results. rewrite Hacc. simpl.
  eapply for_each_raise; eauto.
Qed.

Lemma match_raise_aborts tournament year doc hd m entries e :
  reaches_match tournament year doc hd m entries ->
  match_body (fst hd) (snd hd) m entries = Raise e ->
  get_tournament_singles_results tournament year doc = Raise e.
Proof.
  intros (tday & entries0 & pre & post & Hday & Hhd & Hms & Hpre) Hm.
  eapply day_raise_aborts; eauto.
  unfold day_body. rewrite Hhd, Hms. simpl.
  eapply for_each_raise; eauto.
Qed.

Example scenario_A :
  Datetime.strptime_a_d_B_Y "Mon, 15 January, 2024"
  = Ok (Datetime.mkdate 2024 1 15).
Proof. reflexivity. Qed.

Example scenario_B_scan :
  scan_match Sample.scenario_B = Ok (Some Sample.scenario_B_alignment).
Proof. vm_compute. reflexivity. Qed.

Example scenario_B_entries :
  get_tournament_singles_results Sample.tournament 2024 Sample.scenario_B_page
  = Ok [Sample.scenario_B_result].
Proof. vm_compute. reflexivity. Qed.

Example scenario_D entries :
  match_body (MatchRef.mk "336" 2024 "ms001") (Datetime.mkdate 2024 1 15)
             Sample.unmarked entries = Ok entries.
Proof. reflexivity. Qed.

(* ================================================================== *)
(** ** Properties of the specification *)

(** C1. For every match with a determined winner, each aligned set pair is
    classified as won by the victor exactly when the victor's games are at
    least the opponent's or the victor's slot has a tiebreak value, and
    [winner_won_sets] is the number of pairs so classified; [sets_played]
    is the number of aligned pairs.  For victor sets [(6, None), (7, 3)]
    against [(4, None), (6, None)] this gives 2 sets played and 2 won. *)
Theorem victor_sets_won_counts_classified (m : match_block) (a : alignment) :
  scan_match m = Ok (Some a) ->
  exists wsets lsets wtbs,
    Py.index (player_sets (blocks a)) (victor a) = Ok wsets /\
    Py.index (player_sets (blocks a)) (1 - victor a) = Ok lsets /\
    Py.index (player_tbs (blocks a)) (victor a) = Ok wtbs /\
    sets_played a = len (aligned wsets lsets wtbs) /\
    counts won_by_victor (aligned wsets lsets wtbs) (winner_won_sets a) /\
    (wsets = [6; 7] -> wtbs = [None; Some 3] -> lsets = [4; 6] ->
     sets_played a = 2 /\ winner_won_sets a = 2).
Proof.
  intros H. apply scan_match_Some in H
    as (b0 & b1 & p0 & p1 & s0 & s1 & t0 & t1 & F).
  pose proof (aligned_loop _ _ _ _ _ (sf_loop _ _ _ _ _ _ _ _ _ _ F)) as [Hn Hk].
  rewrite zip3_aligned in Hn, Hk. rewrite Z.sub_0_r in Hk. rewrite Z.add_0_l in Hn.
  pose proof (sf_victor _ _ _ _ _ _ _ _ _ _ F) as Hv.
  exists (pick (victor a) s0 s1), (pick (victor a) s1 s0), (pick (victor a) t0 t1).
  rewrite (sf_sets _ _ _ _ _ _ _ _ _ _ F), (sf_tbs _ _ _ _ _ _ _ _ _ _ F).
  destruct (index_pair s0 s1 _ Hv) as [I1 I2].
  destruct (index_pair t0 t1 _ Hv) as [I3 _].
  split; [exact I1|]. split; [exact I2|]. split; [exact I3|].
  split; [exact Hn|]. split; [exact Hk|].
  intros E1 E2 E3. rewrite E1, E2, E3 in Hn, Hk. split; [exact Hn|].
  eapply counts_unique; [exact Hk|].
  change 2 with (0 + 1 + 1).
  apply counts_yes; [left; lia|].
  apply counts_yes; [right; discriminate|]. constructor.
Qed.

Lemma victor_sets_won_counts_classified_witness :
  exists wsets lsets wtbs,
    Py.index (player_sets (blocks Sample.scenario_B_alignment))
             (victor Sample.scenario_B_alignment) = Ok wsets /\
    Py.index (player_sets (blocks Sample.scenario_B_alignment))
             (1 - victor Sample.scenario_B_alignment) = Ok lsets /\
    Py.index (player_tbs (blocks Sample.scenario_B_alignment))
             (victor Sample.scenario_B_alignment) = Ok wtbs /\
    sets_played Sample.scenario_B_alignment = len (aligned wsets lsets wtbs) /\
    counts won_by_victor (aligned wsets lsets wtbs)
           (winner_won_sets Sample.scenario_B_alignment) /\
    (wsets = [6; 7] -> wtbs = [None; Some 3] -> lsets = [4; 6] ->
     sets_played Sample.scenario_B_alignment = 2 /\
     winner_won_sets Sample.scenario_B_alignment = 2).
Proof.
  apply (victor_sets_won_counts_classified Sample.scenario_B).
  vm_compute. reflexivity.
Defined.

(** C2. For every record of the returned list, [best_of] is 3 if the
    victor's count of won sets is 2 and 5 otherwise; so it is 3 or 5. *)
Theorem best_of_three_or_five tournament year doc entries r :
  get_tournament_singles_results tournament year doc = Ok entries ->
  In r entries ->
  (exists m a, emitted_from tournament year doc r m a) /\
  (forall m a, emitted_from tournament year doc r m a ->
     (winner_won_sets a = 2 -> MatchResult.best_of r = 3) /\
     (winner_won_sets a <> 2 -> MatchResult.best_of r = 5)) /\
  (MatchResult.best_of r = 3 \/ MatchResult.best_of r = 5).
Proof.
  intros H Hin.
  destruct (entries_emitted _ _ _ _ _ H Hin) as (m & a & Hem).
  assert (forall m a, emitted_from tournament year doc r m a ->
            MatchResult.best_of r = (if winner_won_sets a =? 2 then 3 else 5))
    as Hb.
  { intros m' a' (days & tday & hd & _ & _ & _ & _ & _ & Hr).
    apply make_entry_Ok in Hr. tauto. }
  split; [eauto|]. split.
  - intros m' a' Hem'. rewrite (Hb _ _ Hem').
    destruct (Z.eqb_spec (winner_won_sets a') 2); split; intros; congruence.
  - rewrite (Hb _ _ Hem). destruct (_ =? _); auto.
Qed.

Lemma best_of_three_or_five_witness :
  (exists m a, emitted_from Sample.tournament 2024 Sample.scenario_B_page
                            Sample.scenario_B_result m a) /\
  (forall m a, emitted_from Sample.tournament 2024 Sample.scenario_B_page
                            Sample.scenario_B_result m a ->
     (winner_won_sets a = 2 -> MatchResult.best_of Sample.scenario_B_result = 3) /\
     (winner_won_sets a <> 2 -> MatchResult.best_of Sample.scenario_B_result = 5)) /\
  (MatchResult.best_of Sample.scenario_B_result = 3 \/
   MatchResult.best_of Sample.scenario_B_result = 5).
Proof.
  apply (best_of_three_or_five Sample.tournament 2024 Sample.scenario_B_page
           [Sample.scenario_B_result]).
  - vm_compute. reflexivity.
  - simpl. left. reflexivity.
Defined.

(** C3. For every record of the returned list and every slot [i] in 1..5,
    the winner's games of set [i] are absent iff the loser's are, iff [i]
    exceeds [sets_played]; beyond [sets_played] the tiebreaks are absent
    too, and an absent slot is [None], not 0. *)
Theorem slots_absent_beyond_sets_played tournament year doc entries r :
  get_tournament_singles_results tournament year doc = Ok entries ->
  In r entries ->
  (exists m a, emitted_from tournament year doc r m a) /\
  (forall m a, emitted_from tournament year doc r m a ->
     forall i, 1 <= i <= 5 ->
       (winner_set r i = None <-> loser_set r i = None) /\
       (loser_set r i = None <-> i > sets_played a) /\
       (i > sets_played a ->
        winner_set r i <> Some 0 /\ loser_set r i <> Some 0 /\
        winner_tb r i = None /\ loser_tb r i = None)).
Proof.
  intros H Hin. split; [eapply entries_emitted; eauto|].
  intros m a (days & tday & hd & _ & _ & _ & _ & _ & Hr) i Hi.
  apply make_entry_Ok in Hr as (_ & _ & _ & _ & _ & _ & Hslots).
  destruct (Hslots i Hi) as (Hw & Hwt & Hl & Hlt).
  apply set_slot_Ok in Hw as [Hw _]. apply set_slot_Ok in Hl as [Hl _].
  apply tb_slot_Ok in Hwt as [Hwt _]. apply tb_slot_Ok in Hlt as [Hlt _].
  repeat split; intros.
  - apply Hl. apply Hw. assumption.
  - apply Hw. apply Hl. assumption.
  - apply Hl in H0. lia.
  - apply Hl. lia.
  - assert (winner_set r i = None) as -> by (apply Hw; lia). discriminate.
  - assert (loser_set r i = None) as -> by (apply Hl; lia). discriminate.
  - apply Hwt. lia.
  - apply Hlt. lia.
Qed.

Lemma slots_absent_beyond_sets_played_witness :
  (exists m a, emitted_from Sample.tournament 2024 Sample.scenario_B_page
                            Sample.scenario_B_result m a) /\
  (forall m a, emitted_from Sample.tournament 2024 Sample.scenario_B_page
                            Sample.scenario_B_result m a ->
     forall i, 1 <= i <= 5 ->
       (winner_set Sample.scenario_B_result i = None <->
        loser_set Sample.scenario_B_result i = None) /\
       (loser_set Sample.scenario_B_result i = None <-> i > sets_played a) /\
       (i > sets_played a ->
        winner_set Sample.scenario_B_result i <> Some 0 /\
        loser_set Sample.scenario_B_result i <> Some 0 /\
        winner_tb Sample.scenario_B_result i = None /\
        loser_tb Sample.scenario_B_result i = None)).
Proof.
  apply (slots_absent_beyond_sets_played Sample.tournament 2024
           Sample.scenario_B_page [Sample.scenario_B_result]).
  - vm_compute. reflexivity.
  - simpl. left. reflexivity.
Defined.

(** C4, as the code has it. The winner and the loser of a record are the
    references read from the two competitor blocks of its match, the
    winner from the block [winner_idx] points at and the loser from the
    other one; they differ exactly when the two blocks give different
    references.  Nothing compares the two references. *)
Theorem winner_and_loser_are_the_two_blocks tournament year doc entries r :
  get_tournament_singles_results tournament year doc = Ok entries ->
  In r entries ->
  exists m a b0 b1 p0 p1,
    emitted_from tournament year doc r m a /\
    stats_items m = [b0; b1] /\
    profile_ref b0 = Ok p0 /\ profile_ref b1 = Ok p1 /\
    ((victor a = 0 /\ MatchResult.winner r = p0 /\ MatchResult.loser r = p1) \/
     (victor a = 1 /\ MatchResult.winner r = p1 /\ MatchResult.loser r = p0)) /\
    (MatchResult.winner r <> MatchResult.loser r <-> p0 <> p1).
Proof.
  intros H Hin.
  destruct (entries_emitted _ _ _ _ _ H Hin) as (m & a & Hem).
  pose proof Hem as (days & tday & hd & _ & _ & _ & _ & Hscan & Hr).
  apply scan_match_Some in Hscan
    as (b0 & b1 & p0 & p1 & s0 & s1 & t0 & t1 & F).
  apply make_entry_Ok in Hr as (_ & _ & _ & _ & Hw & Hl & _).
  rewrite (sf_players _ _ _ _ _ _ _ _ _ _ F) in Hw, Hl.
  exists m, a, b0, b1, p0, p1.
  split; [exact Hem|]. split; [apply (sf_items _ _ _ _ _ _ _ _ _ _ F)|].
  split; [apply (sf_p0 _ _ _ _ _ _ _ _ _ _ F)|].
  split; [apply (sf_p1 _ _ _ _ _ _ _ _ _ _ F)|].
  destruct (sf_victor _ _ _ _ _ _ _ _ _ _ F) as [V|V]; rewrite V in Hw, Hl;
    injection Hw as Hw; injection Hl as Hl; rewrite <- Hw, <- Hl.
  - split; [left; auto|]. tauto.
  - split; [right; auto|]. split; intros Hne E; apply Hne; congruence.
Qed.

Lemma winner_and_loser_are_the_two_blocks_witness :
  exists m a b0 b1 p0 p1,
    emitted_from Sample.tournament 2024 Sample.scenario_B_page
                 Sample.scenario_B_result m a /\
    stats_items m = [b0; b1] /\
    profile_ref b0 = Ok p0 /\ profile_ref b1 = Ok p1 /\
    ((victor a = 0 /\ MatchResult.winner Sample.scenario_B_result = p0 /\
      MatchResult.loser Sample.scenario_B_result = p1) \/
     (victor a = 1 /\ MatchResult.winner Sample.scenario_B_result = p1 /\
      MatchResult.loser Sample.scenario_B_result = p0)) /\
    (MatchResult.winner Sample.scenario_B_result
     <> MatchResult.loser Sample.scenario_B_result <-> p0 <> p1).
Proof.
  apply (winner_and_loser_are_the_two_blocks Sample.tournament 2024
           Sample.scenario_B_page [Sample.scenario_B_result]).
  - vm_compute. reflexivity.
  - simpl. left. reflexivity.
Defined.

(** C4 fails on a page whose two competitor blocks link to one profile:
    the record has the same reference as winner and as loser. *)
Lemma same_profile_winner_is_loser :
  exists entries r,
    get_tournament_singles_results Sample.tournament 2024
                                   Sample.same_profile_page = Ok entries /\
    In r entries /\
    MatchResult.winner r = MatchResult.loser r.
Proof.
  eexists. eexists. split; [vm_compute; reflexivity|].
  split; [left; reflexivity | reflexivity].
Qed.

(** C5, as the code has it. The two set sequences are aligned position by
    position up to the shorter one: [sets_played] is the smaller of the
    two lengths, the entries after it play no part, and it is at least 0.
    It is at most 5 when one of the two blocks has at most five score
    entries; the code sets no bound of its own. *)
Theorem sets_played_is_aligned_length (m : match_block) (a : alignment) :
  scan_match m = Ok (Some a) ->
  exists b0 b1 wsets lsets wtbs,
    stats_items m = [b0; b1] /\
    Py.index (player_sets (blocks a)) (victor a) = Ok wsets /\
    Py.index (player_sets (blocks a)) (1 - victor a) = Ok lsets /\
    Py.index (player_tbs (blocks a)) (victor a) = Ok wtbs /\
    sets_played a = Z.min (len wsets) (len lsets) /\
    0 <= sets_played a /\
    (let n := Z.to_nat (sets_played a) in
     fold_left aligned_set_body
       (zip3 (firstn n wsets) (firstn n lsets) (firstn n wtbs)) (0, 0)
     = (sets_played a, winner_won_sets a)) /\
    (len (score_items b0) <= 5 \/ len (score_items b1) <= 5 ->
     sets_played a <= 5).
Proof.
  intros H. apply scan_match_Some in H
    as (b0 & b1 & p0 & p1 & s0 & s1 & t0 & t1 & F).
  destruct (scan_facts_lengths _ _ _ _ _ _ _ _ _ _ F)
    as (L0 & L1 & B0 & B1 & Hn & _).
  pose proof (aligned_loop _ _ _ _ _ (sf_loop _ _ _ _ _ _ _ _ _ _ F)) as [Hz _].
  pose proof (sf_victor _ _ _ _ _ _ _ _ _ _ F) as Hv.
  exists b0, b1, (pick (victor a) s0 s1), (pick (victor a) s1 s0),
    (pick (victor a) t0 t1).
  rewrite (sf_sets _ _ _ _ _ _ _ _ _ _ F), (sf_tbs _ _ _ _ _ _ _ _ _ _ F).
  destruct (index_pair s0 s1 _ Hv) as [I1 I2].
  destruct (index_pair t0 t1 _ Hv) as [I3 _].
  split; [apply (sf_items _ _ _ _ _ _ _ _ _ _ F)|].
  split; [exact I1|]. split; [exact I2|]. split; [exact I3|].
  split; [destruct Hv as [V|V]; rewrite V; unfold pick; simpl; lia|].
  split; [pose proof (len_nonneg s0); pose proof (len_nonneg s1); lia|].
  split.
  - cbv zeta.
    replace (Z.to_nat (sets_played a))
      with (List.length (zip3 (pick (victor a) s0 s1) (pick (victor a) s1 s0)
                              (pick (victor a) t0 t1)))
      by (rewrite Hz; unfold len; lia).
    rewrite zip3_firstn. apply (sf_loop _ _ _ _ _ _ _ _ _ _ F).
  - lia.
Qed.

Lemma sets_played_is_aligned_length_witness :
  exists b0 b1 wsets lsets wtbs,
    stats_items Sample.scenario_B = [b0; b1] /\
    Py.index (player_sets (blocks Sample.scenario_B_alignment))
             (victor Sample.scenario_B_alignment) = Ok wsets /\
    Py.index (player_sets (blocks Sample.scenario_B_alignment))
             (1 - victor Sample.scenario_B_alignment) = Ok lsets /\
    Py.index (player_tbs (blocks Sample.scenario_B_alignment))
             (victor Sample.scenario_B_alignment) = Ok wtbs /\
    sets_played Sample.scenario_B_alignment = Z.min (len wsets) (len lsets) /\
    0 <= sets_played Sample.scenario_B_alignment /\
    (let n := Z.to_nat (sets_played Sample.scenario_B_alignment) in
     fold_left aligned_set_body
       (zip3 (firstn n wsets) (firstn n lsets) (firstn n wtbs)) (0, 0)
     = (sets_played Sample.scenario_B_alignment,
        winner_won_sets Sample.scenario_B_alignment)) /\
    (len (score_items b0) <= 5 \/ len (score_items b1) <= 5 ->
     sets_played Sample.scenario_B_alignment <= 5).
Proof.
  apply (sets_played_is_aligned_length Sample.scenario_B).
  vm_compute. reflexivity.
Defined.

(** C5 fails on a match with six score entries on each side: the aligned
    length is 6. *)
Lemma six_sets_played :
  exists a,
    scan_match Sample.six_sets = Ok (Some a) /\
    sets_played a = 6 /\
    ~ (0 <= sets_played a <= 5).
Proof.
  eexists. split; [vm_compute; reflexivity|]. simpl. split; [reflexivity | lia].
Qed.

(** C6, as the code has it. A day group without a link labelled Stats does
    not parse: line 193 indexes the empty list of links, so the day raises
    ([IndexError] when its date parses) and the exception leaves the
    function; no record is returned for that day or any other. *)
Theorem missing_stats_link_raises tournament year doc tday entries :
  reaches_day tournament year doc tday entries ->
  stats_href tday = [] ->
  exists e,
    day_header tournament year tday = Raise e /\
    get_tournament_singles_results tournament year doc = Raise e /\
    (forall text date,
       Py.index (tournament_day_h4_text tday) 0 = Ok text ->
       Datetime.strptime_a_d_B_Y (Py.strip text) = Ok date ->
       e = IndexError).
Proof.
  intros Hreach Hnone.
  assert (exists e,
            day_header tournament year tday = Raise e /\
            (forall text date,
               Py.index (tournament_day_h4_text tday) 0 = Ok text ->
               Datetime.strptime_a_d_B_Y (Py.strip text) = Ok date ->
               e = IndexError)) as (e & He & Hidx).
  { unfold day_header. rewrite Hnone.
    destruct (Py.index (tournament_day_h4_text tday) 0) as [text|e1]; simpl.
    - destruct (Datetime.strptime_a_d_B_Y (Py.strip text)) as [d|e2] eqn:E2;
        simpl.
      + exists IndexError. split; [reflexivity | auto].
      + exists e2. split; [reflexivity|].
        intros t0 d0 Ht0 Hd0. injection Ht0 as Ht0. subst t0. congruence.
    - exists e1. split; [reflexivity|]. intros t0 d0 Ht0. discriminate. }
  exists e. split; [exact He|]. split; [|exact Hidx].
  eapply day_raise_aborts; [exact Hreach|].
  unfold day_body. rewrite He. reflexivity.
Qed.

Lemma missing_stats_link_raises_witness :
  exists e,
    day_header Sample.tournament 2024
      (Sample.a_day "Mon, 15 January, 2024" [] [Sample.scenario_B]) = Raise e /\
    get_tournament_singles_results Sample.tournament 2024 Sample.no_stats_page
    = Raise e /\
    (forall text date,
       Py.index (tournament_day_h4_text
                   (Sample.a_day "Mon, 15 January, 2024" []
                                 [Sample.scenario_B])) 0 = Ok text ->
       Datetime.strptime_a_d_B_Y (Py.strip text) = Ok date ->
       e = IndexError).
Proof.
  apply (missing_stats_link_raises Sample.tournament 2024 Sample.no_stats_page
           (Sample.a_day "Mon, 15 January, 2024" [] [Sample.scenario_B]) []).
  - exists [], []. split; reflexivity.
  - reflexivity.
Defined.

(** C6 fails on a page whose only day has a date, a match and no Stats
    link: the function raises [IndexError] and returns no list. *)
Lemma no_stats_link_no_entries :
  get_tournament_singles_results Sample.tournament 2024 Sample.no_stats_page
  = Raise IndexError /\
  ~ exists entries,
      get_tournament_singles_results Sample.tournament 2024
                                     Sample.no_stats_page = Ok entries.
Proof.
  assert (get_tournament_singles_results Sample.tournament 2024
            Sample.no_stats_page = Raise IndexError) as H
      by (vm_compute; reflexivity).
  split; [exact H|]. intros [entries He]. rewrite H in He. discriminate.
Qed.

Lemma parse_duration_malformed (t : string) :
  (~ exists h m s, duration_parts t h m s) ->
  parse_duration [t] = Raise ValueError.
Proof.
  intros Hmal. unfold parse_duration.
  destruct (Py.split ":" (Py.strip t)) as [|a [|b [|c [|d rest]]]] eqn:E;
    simpl;
    repeat match goal with
           | |- context [match Py.int ?x with _ => _ end] =>
               let Ex := fresh "Ex" in destruct (Py.int x) eqn:Ex
           end;
    try reflexivity.
  exfalso. apply Hmal. unfold duration_parts. rewrite E.
  do 6 eexists. repeat split; eauto.
Qed.

(** C7, as the code has it. When the header gives one duration text that
    reads as H:MM:SS the field is [H*60+MM]; when the header gives no text
    (or several) the field is absent; a text that does not read as
    H:MM:SS is a hard error: [ValueError] leaves the match, and with it
    the function, whenever the loop reaches that match. *)
Theorem duration_field_of_match (m : match_block) :
  (forall t h mi s a match_ref date r,
     header_span2_text m = [t] -> duration_parts t h mi s ->
     scan_match m = Ok (Some a) -> make_entry match_ref date a = Ok r ->
     MatchResult.duration r = Some (h * 60 + mi)) /\
  (forall a match_ref date r,
     List.length (header_span2_text m) <> 1%nat ->
     scan_match m = Ok (Some a) -> make_entry match_ref date a = Ok r ->
     MatchResult.duration r = None) /\
  (forall t,
     header_span2_text m = [t] -> (~ exists h mi s, duration_parts t h mi s) ->
     scan_match m = Raise ValueError /\
     forall tournament year doc hd entries,
       reaches_match tournament year doc hd m entries ->
       get_tournament_singles_results tournament year doc = Raise ValueError).
Proof.
  split; [|split].
  - intros t h mi s a match_ref date r Ht (x & y & z & Hs & Hx & Hy & Hz) Hscan Hr.
    apply make_entry_Ok in Hr as (_ & _ & -> & _).
    apply scan_match_Some in Hscan as (? & ? & ? & ? & ? & ? & ? & ? & F).
    pose proof (sf_duration _ _ _ _ _ _ _ _ _ _ F) as Hd.
    rewrite Ht in Hd. unfold parse_duration in Hd. rewrite Hs in Hd.
    simpl in Hd. rewrite Hx, Hy, Hz in Hd. congruence.
  - intros a match_ref date r Hlen Hscan Hr.
    apply make_entry_Ok in Hr as (_ & _ & -> & _).
    apply scan_match_Some in Hscan as (? & ? & ? & ? & ? & ? & ? & ? & F).
    pose proof (sf_duration _ _ _ _ _ _ _ _ _ _ F) as Hd.
    unfold parse_duration in Hd.
    destruct (header_span2_text m) as [|t [|t' rest]]; simpl in Hlen;
      [congruence | lia | congruence].
  - intros t Ht Hmal.
    assert (scan_match m = Raise ValueError) as Hs.
    { unfold scan_match. rewrite Ht, (parse_duration_malformed t Hmal).
      reflexivity. }
    split; [exact Hs|].
    intros tournament year doc hd entries Hreach.
    eapply match_raise_aborts; [exact Hreach|].
    unfold match_body. rewrite Hs. reflexivity.
Qed.

Lemma duration_field_of_match_witness :
  MatchResult.duration Sample.scenario_B_result = Some (1 * 60 + 23) /\
  (exists a r,
     scan_match Sample.no_duration = Ok (Some a) /\
     make_entry (MatchRef.mk "336" 2024 "ms001") (Datetime.mkdate 2024 1 15) a
     = Ok r /\
     MatchResult.duration r = None) /\
  scan_match Sample.bad_duration = Raise ValueError.
Proof.
  split; [|split].
  - apply (proj1 (duration_field_of_match Sample.scenario_B)
             "01:23:45" 1 23 45 Sample.scenario_B_alignment
             (MatchRef.mk "336" 2024 "ms001") (Datetime.mkdate 2024 1 15)).
    + reflexivity.
    + exists "01", "23", "45". repeat split; vm_compute; reflexivity.
    + vm_compute. reflexivity.
    + vm_compute. reflexivity.
  - eexists. eexists.
    split; [vm_compute; reflexivity|]. split; [vm_compute; reflexivity|].
    eapply (proj1 (proj2 (duration_field_of_match Sample.no_duration))).
    + simpl. lia.
    + vm_compute. reflexivity.
    + vm_compute. reflexivity.
  - apply (proj2 (proj2 (duration_field_of_match Sample.bad_duration)) "1h23").
    + reflexivity.
    + intros (h & mi & s & a & b & c & Hs & _). vm_compute in Hs. discriminate.
Defined.

(** C7 fails on a page with a match whose duration text is [1h23]: the
    function raises [ValueError]; the match is not kept with an absent
    duration, and the record of the match before it is lost as well. *)
Lemma malformed_duration_aborts :
  header_span2_text Sample.bad_duration = ["1h23"] /\
  get_tournament_singles_results Sample.tournament 2024
                                 Sample.bad_duration_page = Raise ValueError /\
  ~ exists entries,
      get_tournament_singles_results Sample.tournament 2024
                                     Sample.bad_duration_page = Ok entries.
Proof.
  assert (get_tournament_singles_results Sample.tournament 2024
            Sample.bad_duration_page = Raise ValueError) as H
      by (vm_compute; reflexivity).
  split; [reflexivity|]. split; [exact H|].
  intros [entries He]. rewrite H in He. discriminate.
Qed.

(** C8, as the code has it. A day whose title is not of the form
    "weekday, day month, year" raises [ValueError] at line 189, and the
    exception leaves the function: it is fatal to the page, and the
    records of the days before it are not returned. *)
Theorem unparsed_date_aborts_page tournament year doc tday entries text :
  reaches_day tournament year doc tday entries ->
  Py.index (tournament_day_h4_text tday) 0 = Ok text ->
  (forall d, Datetime.strptime_a_d_B_Y (Py.strip text) <> Ok d) ->
  day_body tournament year tday entries = Raise ValueError /\
  get_tournament_singles_results tournament year doc = Raise ValueError.
Proof.
  intros Hreach Htext Hbad.
  assert (day_body tournament year tday entries = Raise ValueError) as Hd.
  { unfold day_body, day_header. rewrite Htext. simpl.
    unfold Datetime.strptime_a_d_B_Y in *.
    destruct (Datetime.parse_a_d_B_Y _) as [d|]; [|reflexivity].
    exfalso. apply (Hbad d). reflexivity. }
  split; [exact Hd|]. eapply day_raise_aborts; eauto.
Qed.

Lemma unparsed_date_aborts_page_witness :
  day_body Sample.tournament 2024
    (Sample.a_day "Day 2" [Sample.stats_link] [Sample.scenario_B])
    [Sample.scenario_B_result] = Raise ValueError /\
  get_tournament_singles_results Sample.tournament 2024 Sample.bad_date_page
  = Raise ValueError.
Proof.
  apply (unparsed_date_aborts_page Sample.tournament 2024 Sample.bad_date_page
           (Sample.a_day "Day 2" [Sample.stats_link] [Sample.scenario_B])
           [Sample.scenario_B_result] "Day 2").
  - exists [Sample.a_day "Mon, 15 January, 2024" [Sample.stats_link]
                         [Sample.scenario_B]], [].
    split; [reflexivity | vm_compute; reflexivity].
  - reflexivity.
  - intros d. vm_compute. discriminate.
Defined.

(** C8 fails on a page with a good day followed by a day entitled
    [Day 2]: alone, the good day gives its record; with the second day
    after it the function raises and returns nothing. *)
Lemma bad_date_loses_other_days :
  get_tournament_singles_results Sample.tournament 2024 Sample.scenario_B_page
  = Ok [Sample.scenario_B_result] /\
  get_tournament_singles_results Sample.tournament 2024 Sample.bad_date_page
  = Raise ValueError /\
  ~ exists entries,
      get_tournament_singles_results Sample.tournament 2024
                                     Sample.bad_date_page = Ok entries /\
      In Sample.scenario_B_result entries.
Proof.
  assert (get_tournament_singles_results Sample.tournament 2024
            Sample.bad_date_page = Raise ValueError) as H
      by (vm_compute; reflexivity).
  split; [vm_compute; reflexivity|]. split; [exact H|].
  intros (entries & He & _). rewrite H in He. discriminate.
Qed.

(** A match with two readable competitor blocks of which the loop leaves
    [w] in [winner_idx] reaches line 234. *)
Lemma scan_match_two_blocks m dur b0 b1 p0 p1 s0 s1 t0 t1 w :
  parse_duration (header_span2_text m) = Ok dur ->
  stats_items m = [b0; b1] ->
  profile_ref b0 = Ok p0 -> profile_ref b1 = Ok p1 ->
  for_each score_item_body (score_items b0) ([], []) = Ok (s0, t0) ->
  for_each score_item_body (score_items b1) ([], []) = Ok (s1, t1) ->
  last_marked 0 [b0; b1] None = Some w ->
  exists a,
    scan_match m = Ok (Some a) /\ victor a = w /\
    players (blocks a) = [p0; p1].
Proof.
  intros Hd Hi Hp0 Hp1 Hs0 Hs1 Hw.
  assert (w = 0 \/ w = 1) as Hv.
  { apply last_marked_range in Hw as [Hw|Hw]; [discriminate|].
    unfold len in Hw; simpl in Hw; lia. }
  unfold scan_match. rewrite Hd, Hi. cbn [bind].
  unfold enumerate. cbn [enumerate_from for_each].
  unfold stats_item_body. rewrite Hp0, Hs0. cbn [bind Z.add].
  rewrite Hp1, Hs1. cbn [bind players player_sets player_tbs winner_idx
                          no_competitors app].
  cbn [last_marked] in Hw. cbn [Z.add] in Hw. rewrite Hw.
  change (len [p0; p1] =? 2) with true. cbv iota.
  destruct (index_pair s0 s1 w Hv) as [-> ->].
  destruct (index_pair t0 t1 w Hv) as [-> _]. cbn [bind].
  destruct (fold_left _ _ _) as [n won]. eexists. split; [reflexivity|].
  split; reflexivity.
Qed.

(** C9, as the code has it. Take a match block whose duration and whose
    competitor blocks are read without an exception.  If it has not
    exactly two competitor blocks, or no block carries a winner marker,
    the match is skipped: nothing is appended and the loop goes on with
    the next match.  If both of its two blocks carry a marker the match
    is not skipped: the second block is taken as the winner and a record
    is appended. *)
Theorem unmatched_structure_is_skipped (m : match_block) dur st :
  parse_duration (header_span2_text m) = Ok dur ->
  for_each stats_item_body (enumerate (stats_items m)) no_competitors = Ok st ->
  (List.length (stats_items m) <> 2%nat \/
   (forall b, In b (stats_items m) -> winner_divs b = 0%nat) ->
   scan_match m = Ok None /\
   forall match_ref date ms entries,
     for_each (match_body match_ref date) (m :: ms) entries
     = for_each (match_body match_ref date) ms entries) /\
  (forall b0 b1,
     stats_items m = [b0; b1] ->
     (0 < winner_divs b0)%nat -> (0 < winner_divs b1)%nat ->
     forall match_ref date entries,
     exists a r,
       scan_match m = Ok (Some a) /\ victor a = 1 /\
       make_entry match_ref date a = Ok r /\
       match_body match_ref date m entries = Ok (entries ++ [r]) /\
       profile_ref b1 = Ok (MatchResult.winner r) /\
       profile_ref b0 = Ok (MatchResult.loser r)).
Proof.
  intros Hd Hloop. pose proof Hloop as Hloop'.
  unfold enumerate in Hloop'.
  apply competitors_loop in Hloop' as (ps & ss & ts & Hsc & Hp & Hs & Ht & Hw).
  simpl in Hp, Hs, Ht, Hw.
  split.
  - intros Hbad.
    assert (scan_match m = Ok None) as Hskip.
    { unfold scan_match. rewrite Hd, Hloop. cbn [bind].
      destruct Hbad as [Hlen | Hnone].
      - destruct (Z.eqb_spec (len (players st)) 2) as [E|E]; [|reflexivity].
        exfalso. apply Hlen. rewrite Hp in E.
        apply scanned_lengths in Hsc as (L & _). unfold len in E. lia.
      - rewrite Hw, (last_marked_none _ 0 Hnone).
        destruct (len (players st) =? 2); reflexivity. }
    split; [exact Hskip|].
    intros match_ref date ms entries. cbn [for_each].
    unfold match_body at 1. rewrite Hskip. reflexivity.
  - intros b0 b1 Hi M0 M1 match_ref date entries.
    rewrite Hi in Hsc.
    inversion Hsc as [|? ? p0 ? s0 ? t0 ? Hp0 Hs0 Hsc0]; subst.
    inversion Hsc0 as [|? ? p1 ? s1 ? t1 ? Hp1 Hs1 Hsc1]; subst.
    assert (last_marked 0 [b0; b1] None = Some 1) as Hlast.
    { change (last_marked 0 [b0; b1] None)
        with (if (0 <? winner_divs b1)%nat then Some (0 + 1)
              else if (0 <? winner_divs b0)%nat then Some 0 else None).
      apply Nat.ltb_lt in M1. rewrite M1. reflexivity. }
    destruct (scan_match_two_blocks m dur b0 b1 p0 p1 s0 s1 t0 t1 1
                Hd Hi Hp0 Hp1 Hs0 Hs1 Hlast) as (a & Hscan & Hv & Hpl).
    pose proof Hscan as Hfacts.
    apply scan_match_Some in Hfacts as (? & ? & ? & ? & ? & ? & ? & ? & F).
    destruct (make_entry_total _ _ _ _ _ _ _ _ _ _ match_ref date F) as [r Hr].
    exists a, r. split; [exact Hscan|]. split; [exact Hv|].
    split; [exact Hr|]. split.
    + unfold match_body. rewrite Hscan. cbn [bind]. rewrite Hr. reflexivity.
    + apply make_entry_Ok in Hr as (_ & _ & _ & _ & Hwin & Hlos & _).
      rewrite Hpl, Hv in Hwin, Hlos.
      injection Hwin as <-. injection Hlos as <-. auto.
Qed.

Lemma unmatched_structure_is_skipped_witness :
  scan_match Sample.three_blocks = Ok None /\
  exists a r,
    scan_match Sample.both_marked = Ok (Some a) /\ victor a = 1 /\
    make_entry (MatchRef.mk "336" 2024 "ms001") (Datetime.mkdate 2024 1 15) a
    = Ok r /\
    match_body (MatchRef.mk "336" 2024 "ms001") (Datetime.mkdate 2024 1 15)
               Sample.both_marked [] = Ok ([] ++ [r]) /\
    profile_ref (Sample.block Sample.shang [["4"]; ["3"]] 1)
    = Ok (MatchResult.winner r) /\
    profile_ref (Sample.block Sample.rublev [["6"]; ["6"]] 1)
    = Ok (MatchResult.loser r).
Proof.
  split.
  - refine (proj1 (proj1 (unmatched_structure_is_skipped Sample.three_blocks
                            (Some 83) _ _ _) _)).
    + vm_compute. reflexivity.
    + vm_compute. reflexivity.
    + left. simpl. lia.
  - refine (proj2 (unmatched_structure_is_skipped Sample.both_marked
                     (Some 83) _ _ _) _ _ _ _ _ _ _ _).
    + vm_compute. reflexivity.
    + vm_compute. reflexivity.
    + reflexivity.
    + simpl. lia.
    + simpl. lia.
Defined.

(** C9 fails on a match whose two competitor blocks both carry a winner
    marker: the match is not discarded, a record is appended with the
    second block as the winner. *)
Lemma both_marked_is_kept :
  Forall (fun b => (0 < winner_divs b)%nat) (stats_items Sample.both_marked) /\
  exists r,
    match_body (MatchRef.mk "336" 2024 "ms001") (Datetime.mkdate 2024 1 15)
               Sample.both_marked [] = Ok [r] /\
    MatchResult.winner r = PlayerRef.mk "s0re" "juncheng-shang" /\
    match_body (MatchRef.mk "336" 2024 "ms001") (Datetime.mkdate 2024 1 15)
               Sample.both_marked [] <> Ok [].
Proof.
  split; [repeat constructor|].
  eexists. split; [vm_compute; reflexivity|].
  split; [reflexivity | vm_compute; discriminate].
Qed.

Lemma stats_item_body_ext (i : Z) (b b' : stats_item) :
  name_href b = name_href b' -> winner_divs b = winner_divs b' ->
  (forall st, for_each score_item_body (score_items b) st
              = for_each score_item_body (score_items b') st) ->
  forall st, stats_item_body (i, b) st = stats_item_body (i, b') st.
Proof.
  intros Hn Hw Hs st. unfold stats_item_body, profile_ref.
  rewrite Hn, Hw, Hs. reflexivity.
Qed.

(** C10, as the code has it. A score entry whose number of tokens is
    neither one nor two adds nothing to the competitor's lists and raises
    nothing: the match is read as if the entry were not on the page, so
    the later entries of that competitor move up one position and no gap
    is left.  Every match that reaches line 234 is assembled into a
    record, also when no aligned pair remains. *)
Theorem odd_score_entry_is_skipped (scores : list string) :
  List.length scores <> 1%nat -> List.length scores <> 2%nat ->
  (forall st, score_item_body scores st = Ok st) /\
  (forall pre post st,
     for_each score_item_body (pre ++ scores :: post) st
     = for_each score_item_body (pre ++ post) st) /\
  (forall m bpre b bpost pre post match_ref date entries,
     stats_items m = bpre ++ b :: bpost ->
     score_items b = pre ++ scores :: post ->
     match_body match_ref date m entries
     = match_body match_ref date
         (with_stats_items m
            (bpre ++ with_score_items b (pre ++ post) :: bpost)) entries) /\
  (forall m a match_ref date entries,
     scan_match m = Ok (Some a) ->
     exists r, match_body match_ref date m entries = Ok (entries ++ [r])).
Proof.
  intros H1 H2.
  assert (forall st, score_item_body scores st = Ok st) as Hskip.
  { intros [sets tbs]. unfold score_item_body.
    destruct scores as [|s0 [|s1 [|s2 rest]]]; simpl in H1, H2;
      try reflexivity; congruence. }
  split; [exact Hskip|]. split; [|split].
  - intros pre post st. apply for_each_skip. exact Hskip.
  - intros m bpre b bpost pre post match_ref date entries Hi Hb.
    unfold match_body.
    replace (scan_match
               (with_stats_items m
                  (bpre ++ with_score_items b (pre ++ post) :: bpost)))
      with (scan_match m); [reflexivity|].
    unfold scan_match, with_stats_items. cbn [header_span2_text stats_items].
    rewrite Hi. unfold enumerate. rewrite !enumerate_from_app.
    cbn [enumerate_from].
    rewrite (for_each_ext_at stats_item_body _ _
               (0 + len bpre, b)
               (0 + len bpre, with_score_items b (pre ++ post)));
      [reflexivity|].
    apply stats_item_body_ext; try reflexivity.
    intros st. rewrite Hb. cbn [with_score_items score_items].
    apply for_each_skip. exact Hskip.
  - intros m a match_ref date entries Hscan. pose proof Hscan as Hf.
    apply scan_match_Some in Hf as (? & ? & ? & ? & ? & ? & ? & ? & F).
    destruct (make_entry_total _ _ _ _ _ _ _ _ _ _ match_ref date F) as [r Hr].
    exists r. unfold match_body. rewrite Hscan. cbn [bind]. rewrite Hr.
    reflexivity.
Qed.

Lemma odd_score_entry_is_skipped_witness :
  (forall st, score_item_body ["7"; "6"; "3"] st = Ok st) /\
  (forall pre post st,
     for_each score_item_body (pre ++ ["7"; "6"; "3"] :: post) st
     = for_each score_item_body (pre ++ post) st) /\
  (forall m bpre b bpost pre post match_ref date entries,
     stats_items m = bpre ++ b :: bpost ->
     score_items b = pre ++ ["7"; "6"; "3"] :: post ->
     match_body match_ref date m entries
     = match_body match_ref date
         (with_stats_items m
            (bpre ++ with_score_items b (pre ++ post) :: bpost)) entries) /\
  (forall m a match_ref date entries,
     scan_match m = Ok (Some a) ->
     exists r, match_body match_ref date m entries = Ok (entries ++ [r])).
Proof.
  apply (odd_score_entry_is_skipped ["7"; "6"; "3"]); simpl; lia.
Defined.

(** C10 fails on scenario C with three score entries a side, the victor's
    second one of three tokens: the specification leaves a gap in the
    victor's second slot and keeps the third set; the record has the
    victor's third entry in the second slot, against the opponent's
    second set, and no third set on either side. *)
Lemma three_tokens_leave_no_gap :
  nth_error (slots_with_gaps
               [["6"]; ["7"; "6"; "3"]; ["6"]]) 1 = Some None /\
  nth_error (slots_with_gaps [["4"]; ["6"]; ["2"]]) 2 = Some (Some "2") /\
  exists r,
    match_body (MatchRef.mk "336" 2024 "ms001") (Datetime.mkdate 2024 1 15)
               Sample.three_tokens [] = Ok [r] /\
    MatchResult.w2 r = Some 6 /\ MatchResult.w2 r <> None /\
    MatchResult.l2 r = Some 6 /\
    MatchResult.w3 r = None /\ MatchResult.l3 r = None.
Proof.
  split; [reflexivity|]. split; [reflexivity|].
  eexists. split; [vm_compute; reflexivity|].
  repeat split; try reflexivity. discriminate.
Qed.

(* ================================================================== *)
(** ** Further properties of [get_tournament_singles_results] *)

(** The loops only append: running them from collected entries gives
    those entries followed by what a run from nothing gives. *)
Lemma match_loop_appends match_ref date (ms : list match_block) :
  forall acc,
    for_each (match_body match_ref date) ms acc =
    match for_each (match_body match_ref date) ms [] with
    | Ok new => Ok (acc ++ new)
    | Raise e => Raise e
    end.
Proof.
  induction ms as [|m ms IH]; intros acc; cbn [for_each].
  - rewrite app_nil_r. reflexivity.
  - unfold match_body at 1 3. destruct (scan_match m) as [[a|]|e]; cbn [bind].
    + destruct (make_entry match_ref date a) as [r|e]; cbn [bind]; [|reflexivity].
      rewrite (IH (acc ++ [r])), (IH ([] ++ [r])).
      destruct (for_each _ ms []); [|reflexivity].
      rewrite <- !app_assoc. reflexivity.
    + apply IH.
    + reflexivity.
Qed.

Lemma day_loop_appends tournament year (days : list accordion_item) :
  forall acc,
    for_each (day_body tournament year) days acc =
    match for_each (day_body tournament year) days [] with
    | Ok new => Ok (acc ++ new)
    | Raise e => Raise e
    end.
Proof.
  induction days as [|d days IH]; intros acc; cbn [for_each].
  - rewrite app_nil_r. reflexivity.
  - unfold day_body at 1 3. destruct (day_header tournament year d) as [hd|e];
      cbn [bind]; [|reflexivity].
    rewrite (match_loop_appends _ _ _ acc).
    destruct (for_each (match_body _ _) (matches d) []) as [new|e];
      cbn [bind]; [|reflexivity].
    rewrite (IH (acc ++ new)), (IH new).
    destruct (for_each _ days []); [|reflexivity].
    rewrite app_assoc. reflexivity.
Qed.

(** X1. The records of a page are those of its days, in the order of the
    days: a page with the days [days1 ++ days2] gives the records of
    [days1] followed by those of [days2], and raises what the first of
    the two parts to raise raises. *)
Theorem results_of_days_concatenate tournament year days1 days2 others :
  get_tournament_singles_results tournament year
    {| accordion_items := (days1 ++ days2) :: others |} =
  match get_tournament_singles_results tournament year
          {| accordion_items := days1 :: others |} with
  | Raise e => Raise e
  | Ok entries1 =>
      match get_tournament_singles_results tournament year
              {| accordion_items := days2 :: others |} with
      | Raise e => Raise e
      | Ok entries2 => Ok (entries1 ++ entries2)
      end
  end.
Proof.
  unfold get_tournament_singles_results. cbn.
  rewrite for_each_app.
  destruct (for_each (day_body tournament year) days1 []) as [e1|e]; cbn [bind];
    [|reflexivity].
  apply day_loop_appends.
Qed.










Lemma index_nth {A : Type} (l : list A) (k : Z) (x : A) :
  0 <= k -> Py.index l k = Ok x -> nth_error l (Z.to_nat k) = Some x.
Proof.
  intros Hk. unfold Py.index.
  destruct (Z.ltb_spec k 0); [lia|].
  destruct (_ && _); [|discriminate].
  destruct (nth_error l (Z.to_nat k)); [|discriminate].
  intros [= ->]. reflexivity.
Qed.



Lemma counts_bounds {A : Type} (P : A -> Prop) (l : list A) (n : Z) :
  counts P l n -> 0 <= n <= len l.
Proof.
  induction 1; unfold len in *; cbn [List.length]; lia.
Qed.

(** X5. The victor's count of won sets lies between 0 and [sets_played].
    So a record with [best_of] 3 has its first two slots filled on both
    sides, and a match with fewer than two aligned sets (a walkover, an
    early retirement) is always reported with [best_of] 5. *)
Theorem best_of_three_needs_two_sets (m : match_block) (a : alignment)
        match_ref date (r : MatchResult.t) :
  scan_match m = Ok (Some a) ->
  make_entry match_ref date a = Ok r ->
  0 <= winner_won_sets a <= sets_played a /\
  (MatchResult.best_of r = 3 ->
   MatchResult.w1 r <> None /\ MatchResult.w2 r <> None /\
   MatchResult.l1 r <> None /\ MatchResult.l2 r <> None) /\
  (sets_played a < 2 -> MatchResult.best_of r = 5).
Proof.
  intros Hscan Hr.
  apply scan_match_Some in Hscan
    as (b0 & b1 & p0 & p1 & s0 & s1 & t0 & t1 & F).
  pose proof (aligned_loop _ _ _ _ _ (sf_loop _ _ _ _ _ _ _ _ _ _ F)) as [Hn Hk].
  rewrite Z.sub_0_r in Hk. apply counts_bounds in Hk.
  assert (0 <= winner_won_sets a <= sets_played a) as Hb by lia.
  apply make_entry_Ok in Hr as (_ & _ & _ & Hbest & _ & _ & Hslots).
  split; [exact Hb|]. split.
  - intros H3. rewrite Hbest in H3.
    destruct (Z.eqb_spec (winner_won_sets a) 2) as [E|E]; [|discriminate].
    destruct (Hslots 1 ltac:(lia)) as (Hw1 & _ & Hl1 & _).
    destruct (Hslots 2 ltac:(lia)) as (Hw2 & _ & Hl2 & _).
    apply set_slot_Ok in Hw1 as [Hw1 _]. apply set_slot_Ok in Hl1 as [Hl1 _].
    apply set_slot_Ok in Hw2 as [Hw2 _]. apply set_slot_Ok in Hl2 as [Hl2 _].
    cbn [winner_set loser_set] in *.
    repeat split; intros Hnone;
      [apply Hw1 in Hnone | apply Hw2 in Hnone
       | apply Hl1 in Hnone | apply Hl2 in Hnone]; lia.
  - intros Hlt. rewrite Hbest.
    destruct (Z.eqb_spec (winner_won_sets a) 2); [lia | reflexivity].
Qed.

Lemma best_of_three_needs_two_sets_witness :
  0 <= winner_won_sets Sample.scenario_B_alignment
    <= sets_played Sample.scenario_B_alignment /\
  (MatchResult.best_of Sample.scenario_B_result = 3 ->
   MatchResult.w1 Sample.scenario_B_result <> None /\
   MatchResult.w2 Sample.scenario_B_result <> None /\
   MatchResult.l1 Sample.scenario_B_result <> None /\
   MatchResult.l2 Sample.scenario_B_result <> None) /\
  (sets_played Sample.scenario_B_alignment < 2 ->
   MatchResult.best_of Sample.scenario_B_result = 5).
Proof.
  apply (best_of_three_needs_two_sets Sample.scenario_B
           Sample.scenario_B_alignment
           (MatchRef.mk "336" 2024 "ms001") (Datetime.mkdate 2024 1 15)).
  - vm_compute. reflexivity.
  - vm_compute. reflexivity.
Defined.

(** X6. The winner of a record is the competitor whose block carries the
    winner marker, the second block when both do; the loser is the other
    competitor. *)
Theorem winner_is_the_marked_block (m : match_block) (a : alignment)
        match_ref date (r : MatchResult.t) (b0 b1 : stats_item) :
  scan_match m = Ok (Some a) ->
  make_entry match_ref date a = Ok r ->
  stats_items m = [b0; b1] ->
  ((0 < winner_divs b1)%nat ->
   victor a = 1 /\
   profile_ref b1 = Ok (MatchResult.winner r) /\
   profile_ref b0 = Ok (MatchResult.loser r)) /\
  (winner_divs b1 = 0%nat ->
   (0 < winner_divs b0)%nat /\ victor a = 0 /\
   profile_ref b0 = Ok (MatchResult.winner r) /\
   profile_ref b1 = Ok (MatchResult.loser r)).
Proof.
  intros Hscan Hr Hitems.
  apply scan_match_Some in Hscan
    as (c0 & c1 & p0 & p1 & s0 & s1 & t0 & t1 & F).
  pose proof (sf_items _ _ _ _ _ _ _ _ _ _ F) as Hi. rewrite Hitems in Hi.
  injection Hi as <- <-.
  pose proof (sf_marked _ _ _ _ _ _ _ _ _ _ F) as Hm.
  change (last_marked 0 [b0; b1] None)
    with (if (0 <? winner_divs b1)%nat then Some (0 + 1)
          else if (0 <? winner_divs b0)%nat then Some 0 else None) in Hm.
  apply make_entry_Ok in Hr as (_ & _ & _ & _ & Hw & Hl & _).
  rewrite (sf_players _ _ _ _ _ _ _ _ _ _ F) in Hw, Hl.
  pose proof (sf_p0 _ _ _ _ _ _ _ _ _ _ F) as Hp0.
  pose proof (sf_p1 _ _ _ _ _ _ _ _ _ _ F) as Hp1.
  split.
  - intros M1. apply Nat.ltb_lt in M1. rewrite M1 in Hm.
    injection Hm as Hm. rewrite <- Hm in Hw, Hl.
    injection Hw as <-. injection Hl as <-. auto.
  - intros M1. rewrite M1 in Hm. change (0 <? 0)%nat with false in Hm.
    cbv iota in Hm.
    destruct (0 <? winner_divs b0)%nat eqn:M0; [|discriminate].
    injection Hm as Hm. rewrite <- Hm in Hw, Hl.
    injection Hw as <-. injection Hl as <-.
    apply Nat.ltb_lt in M0. auto.
Qed.

Lemma winner_is_the_marked_block_witness :
  ((0 < winner_divs (Sample.block Sample.ruusuvuori [["4"]; ["6"]] 0))%nat ->
   victor Sample.scenario_B_alignment = 1 /\
   profile_ref (Sample.block Sample.ruusuvuori [["4"]; ["6"]] 0)
   = Ok (MatchResult.winner Sample.scenario_B_result) /\
   profile_ref (Sample.block Sample.rublev [["6"]; ["7"; "3"]] 1)
   = Ok (MatchResult.loser Sample.scenario_B_result)) /\
  (winner_divs (Sample.block Sample.ruusuvuori [["4"]; ["6"]] 0) = 0%nat ->
   (0 < winner_divs (Sample.block Sample.rublev [["6"]; ["7"; "3"]] 1))%nat /\
   victor Sample.scenario_B_alignment = 0 /\
   profile_ref (Sample.block Sample.rublev [["6"]; ["7"; "3"]] 1)
   = Ok (MatchResult.winner Sample.scenario_B_result) /\
   profile_ref (Sample.block Sample.ruusuvuori [["4"]; ["6"]] 0)
   = Ok (MatchResult.loser Sample.scenario_B_result)).
Proof.
  apply (winner_is_the_marked_block Sample.scenario_B
           Sample.scenario_B_alignment
           (MatchRef.mk "336" 2024 "ms001") (Datetime.mkdate 2024 1 15)).
  - vm_compute. reflexivity.
  - vm_compute. reflexivity.
  - reflexivity.
Defined.

(** *** The segments of a link *)

Lemma split_length (c : ascii) (s : string) :
  List.length (Py.split c s) = S (count_char c s).
Proof.
  induction s as [|x r IH]; cbn [Py.split count_char]; [reflexivity|].
  destruct (Ascii.eqb x c); cbn [List.length].
  - rewrite IH. reflexivity.
  - destruct (Py.split c r) as [|h t]; [discriminate|].
    cbn [List.length] in *. lia.
Qed.

Lemma split_free (c : ascii) (s : string) :
  free_of c s -> Py.split c s = [s].
Proof.
  unfold free_of. induction s as [|x r IH]; cbn [Py.split count_char];
    [reflexivity|].
  destruct (Ascii.eqb x c); [discriminate|].
  intros H. rewrite IH by exact H. reflexivity.
Qed.

Lemma split_segment (c : ascii) (s rest : string) :
  free_of c s ->
  Py.split c (s ++ String c rest)%string = s :: Py.split c rest.
Proof.
  unfold free_of. induction s as [|x r IH]; cbn [Py.split count_char append].
  - rewrite Ascii.eqb_refl. reflexivity.
  - destruct (Ascii.eqb x c); [discriminate|].
    intros H. rewrite IH by exact H. reflexivity.
Qed.

(** X7. The reference of a competitor is read from the first profile link
    of its block, cut at the slashes: the id is segment 4 and the slug
    segment 3 (counting from 0).  A block without a profile link, or
    whose first link has fewer than four slashes, raises [IndexError];
    for a link [s0/s1/s2/slug/id/more] the reference is [(id, slug)]. *)
Theorem profile_ref_reads_segments (b : stats_item) :
  (name_href b = [] -> profile_ref b = Raise IndexError) /\
  (forall href rest,
     name_href b = href :: rest -> (count_char "/" href < 4)%nat ->
     profile_ref b = Raise IndexError) /\
  (forall href rest,
     name_href b = href :: rest -> (4 <= count_char "/" href)%nat ->
     exists p,
       profile_ref b = Ok p /\
       nth_error (Py.split "/" href) 4 = Some (PlayerRef.id p) /\
       nth_error (Py.split "/" href) 3 = Some (PlayerRef.slug p)) /\
  (forall s0 s1 s2 slug id more rest,
     free_of "/" s0 -> free_of "/" s1 -> free_of "/" s2 ->
     free_of "/" slug -> free_of "/" id ->
     name_href b
     = (s0 ++ "/" ++ s1 ++ "/" ++ s2 ++ "/" ++ slug ++ "/" ++ id
           ++ "/" ++ more)%string :: rest ->
     profile_ref b = Ok (PlayerRef.mk id slug)).
Proof.
  assert (forall href rest,
            name_href b = href :: rest ->
            profile_ref b
            = (id <- Py.index (Py.split "/" href) 4 ;;
               slug <- Py.index (Py.split "/" href) 3 ;;
               Ok (PlayerRef.mk id slug))) as Hhead.
  { intros href rest H. unfold profile_ref. rewrite H. reflexivity. }
  split; [intros H; unfold profile_ref; rewrite H; reflexivity|].
  split; [|split].
  - intros href rest H Hc. rewrite (Hhead _ _ H).
    pose proof (split_length "/" href) as L.
    unfold Py.index. cbn [Z.ltb Z.compare].
    destruct (Z.ltb_spec 4 (Z.of_nat (List.length (Py.split "/" href))));
      [lia|]. reflexivity.
  - intros href rest H Hc. rewrite (Hhead _ _ H).
    pose proof (split_length "/" href) as L.
    destruct (index_nonneg (Py.split "/" href) 4) as (i4 & -> & N4);
      [unfold len; lia|].
    destruct (index_nonneg (Py.split "/" href) 3) as (i3 & -> & N3);
      [unfold len; lia|].
    eexists. split; [reflexivity|]. split; [exact N4 | exact N3].
  - intros s0 s1 s2 slug id more rest F0 F1 F2 F3 F4 H.
    rewrite (Hhead _ _ H).
    change ("/" ++ ?x)%string with (String "/" x).
    cbn [append].
    rewrite !split_segment by assumption.
    set (segs := s0 :: s1 :: s2 :: slug :: id :: Py.split "/" more).
    destruct (index_nonneg segs 4) as (i4 & E4 & N4);
      [unfold len, segs; cbn [List.length]; lia|].
    destruct (index_nonneg segs 3) as (i3 & E3 & N3);
      [unfold len, segs; cbn [List.length]; lia|].
    rewrite E4, E3. cbn in N4, N3.
    injection N4 as <-. injection N3 as <-. reflexivity.
Qed.

Lemma profile_ref_reads_segments_witness :
  profile_ref (Sample.block Sample.rublev [] 0)
  = Ok (PlayerRef.mk "re44" "andrey-rublev") /\
  profile_ref (Sample.block "/en/players/andrey-rublev" [] 0)
  = Raise IndexError.
Proof.
  split.
  - apply (proj2 (proj2 (proj2
             (profile_ref_reads_segments (Sample.block Sample.rublev [] 0))))
             "" "en" "players" "andrey-rublev" "re44" "overview" []);
      reflexivity.
  - apply (proj1 (proj2
             (profile_ref_reads_segments
                (Sample.block "/en/players/andrey-rublev" [] 0)))
             "/en/players/andrey-rublev" []).
    + reflexivity.
    + vm_compute. lia.
Defined.

(** *** The score entries of a block *)

Lemma score_loop_entries (items : list (list string)) :
  forall sets tbs sets' tbs',
    for_each score_item_body items (sets, tbs) = Ok (sets', tbs') ->
    exists new,
      Forall2 entry_parsed (filter counted items) new /\
      sets' = sets ++ map fst new /\ tbs' = tbs ++ map snd new.
Proof.
  induction items as [|scores items IH]; cbn [for_each filter];
    intros sets tbs sets' tbs' H.
  - injection H as <- <-. exists []. rewrite !app_nil_r. auto.
  - binds. destruct x as [s1 t1].
    apply IH in H as (new & Hnew & -> & ->).
    unfold score_item_body in E.
    destruct scores as [|a [|b [|c rest]]]; cbn [counted List.length Nat.eqb orb];
      binds; injection E as <- <-.
    + exists new. auto.
    + exists ((x, None) :: new). rewrite <- !app_assoc.
      split; [constructor; cbn; auto | auto].
    + exists ((x, Some x0) :: new). rewrite <- !app_assoc.
      split; [constructor; cbn; eauto | auto].
    + exists new. auto.
Qed.

Lemma score_loop_total (items : list (list string)) :
  forall new sets tbs,
    Forall2 entry_parsed (filter counted items) new ->
    for_each score_item_body items (sets, tbs)
    = Ok (sets ++ map fst new, tbs ++ map snd new).
Proof.
  induction items as [|scores items IH]; cbn [for_each filter];
    intros new sets tbs H.
  - inversion H; subst. cbn. rewrite !app_nil_r. reflexivity.
  - unfold score_item_body at 1.
    destruct scores as [|a [|b [|c rest]]];
      cbn [counted List.length Nat.eqb orb] in H.
    + cbn [bind]. apply IH. exact H.
    + inversion H as [|? [g tb] ? new' Hp Hrest]; subst.
      cbn in Hp. destruct Hp as [Hg ->]. rewrite Hg. cbn [bind].
      rewrite (IH _ _ _ Hrest). cbn. rewrite <- !app_assoc. reflexivity.
    + inversion H as [|? [g tb] ? new' Hp Hrest]; subst.
      cbn in Hp. destruct Hp as [Hg (t & Ht & ->)].
      rewrite Hg. cbn [bind]. rewrite Ht. cbn [bind].
      rewrite (IH _ _ _ Hrest). cbn. rewrite <- !app_assoc. reflexivity.
    + cbn [bind]. apply IH. exact H.
Qed.

(** X8. The score loop of a block returns exactly when every entry of one
    or two tokens has integer tokens.  It then yields one pair of games
    and tiebreak for each such entry, in order: the games are the first
    token, the tiebreak is the second token, and is absent exactly for
    the entries of one token; the entries of any other size give nothing. *)
Theorem score_lists_follow_entries (items : list (list string))
        (sets : list Z) (tbs : list (option Z)) :
  for_each score_item_body items ([], []) = Ok (sets, tbs) <->
  Forall2 entry_parsed (filter counted items) (combine sets tbs) /\
  List.length sets = List.length tbs.
Proof.
  split.
  - intros H. apply score_loop_entries in H as (new & Hnew & -> & ->).
    cbn [app]. rewrite !length_map. split; [|reflexivity].
    replace (combine (map fst new) (map snd new)) with new; [exact Hnew|].
    clear. induction new as [|[g t] new IH]; cbn; [reflexivity|].
    rewrite <- IH. reflexivity.
  - intros [H L]. rewrite (score_loop_total _ _ [] [] H). cbn [app].
    f_equal. clear H. revert tbs L.
    induction sets as [|g sets IH]; intros [|t tbs] L; cbn in *;
      try discriminate; [reflexivity|].
    injection L as L. specialize (IH _ L). injection IH as -> ->. reflexivity.
Qed.

(* ================================================================== *)
(** ** Properties of [get_singles_rankings] *)

Lemma rankings_entry_is_ill_formed (v : Rankings.row_values) :
  Rankings.make_entry v = Throw Exc.TypeError.
Proof. reflexivity. Qed.

Lemma rankings_loop (rows : list Rankings.table_row) :
  forall acc out,
    loop Rankings.row_body rows acc = Return out <->
    out = acc /\ Forall (fun tr => Rankings.rank_td tr = []) rows.
Proof.
  induction rows as [|tr rows IH]; intros acc out; cbn [loop].
  - split; [intros [= <-]; auto | intros [-> _]; reflexivity].
  - unfold Rankings.row_body at 1.
    destruct (Rankings.rank_td tr) as [|c cs] eqn:E; cbn [and_then].
    + rewrite IH. split; intros [-> H]; split; auto.
      inversion H; assumption.
    + split.
      * destruct (Rankings.read_row tr) as [v|e]; cbn [and_then];
          [rewrite rankings_entry_is_ill_formed|]; discriminate.
      * intros [_ H]. inversion H; subst. congruence.
Qed.

(** X9. [get_singles_rankings] never returns a ranking entry.  The call
    of [PlayerRef] at line 327 passes three values to a class of two
    fields, so every row with a rank cell raises ([TypeError] when its
    cells are all read); the function returns only for a table in which
    no row has a rank cell, and then returns the empty list. *)
Theorem rankings_never_return_an_entry (rows : list Rankings.table_row) :
  (forall entries,
     Rankings.get_singles_rankings rows = Return entries <->
     entries = [] /\ Forall (fun tr => Rankings.rank_td tr = []) rows) /\
  (forall tr entries,
     Rankings.rank_td tr <> [] ->
     exists e,
       Rankings.row_body tr entries = Throw e /\
       (forall v, Rankings.read_row tr = Return v -> e = Exc.TypeError)).
Proof.
  split; [intros entries; apply rankings_loop|].
  intros tr entries Hrank. unfold Rankings.row_body.
  destruct (Rankings.rank_td tr) as [|c cs]; [congruence|].
  destruct (Rankings.read_row tr) as [v|e]; cbn [and_then].
  - rewrite rankings_entry_is_ill_formed. cbn [and_then].
    exists Exc.TypeError. auto.
  - exists e. split; [reflexivity | discriminate].
Qed.

Lemma rankings_never_return_an_entry_witness :
  Rankings.get_singles_rankings [SampleRankings.header_row] = Return [] /\
  exists e,
    Rankings.row_body SampleRankings.first_row [] = Throw e /\
    (forall v, Rankings.read_row SampleRankings.first_row = Return v ->
               e = Exc.TypeError).
Proof.
  split.
  - apply (proj1 (rankings_never_return_an_entry [SampleRankings.header_row])).
    split; [reflexivity | repeat constructor].
  - apply (proj2 (rankings_never_return_an_entry [SampleRankings.first_row])).
    discriminate.
Defined.

Example first_row_is_read :
  Rankings.read_row SampleRankings.first_row
  = Return SampleRankings.first_row_values.
Proof. vm_compute. reflexivity. Qed.


(* ================================================================== *)
(** ** Properties of [get_tournaments] *)

Example hong_kong_is_read :
  Tournaments.get_tournaments [[SampleTournaments.hong_kong]]
  = Return [SampleTournaments.hong_kong_event].
Proof. vm_compute. reflexivity. Qed.

Lemma and_then_Return {A B : Type} (c : outcome A) (k : A -> outcome B) (b : B) :
  and_then c k = Return b -> exists a, c = Return a /\ k a = Return b.
Proof.
  destruct c as [a|e]; cbn; intros H; [eauto | discriminate].
Qed.

(** Splits every successful [and_then] among the hypotheses. *)
Ltac thens :=
  repeat match goal with
         | H : and_then ?c _ = Return _ |- _ =>
             let a := fresh "y" in
             let E := fresh "R" in
             let H' := fresh in
             destruct (and_then_Return _ _ _ H) as (a & E & H'); clear H;
             rename H' into H; cbv beta in H
         | H : Throw _ = Return _ |- _ => discriminate H
         end.

Lemma of_result_Return {A : Type} (r : result A) (a : A) :
  of_result r = Return a -> r = Ok a.
Proof. destruct r as [x|[]]; cbn; congruence. Qed.

Lemma tournaments_loop (lis : list Tournaments.tournament_li) :
  forall acc out,
    loop Tournaments.li_body lis acc = Return out <->
    exists evs,
      out = acc ++ evs /\
      Forall2 (fun li ev => Tournaments.li_event li = Return ev) lis evs.
Proof.
  induction lis as [|li lis IH]; intros acc out; cbn [loop].
  - split.
    + intros [= <-]. exists []. rewrite app_nil_r. auto.
    + intros (evs & -> & H). inversion H. rewrite app_nil_r. reflexivity.
  - unfold Tournaments.li_body at 1. split.
    + intros H. thens. injection R as <-.
      apply IH in H as (evs & -> & Hevs).
      exists (y0 :: evs). rewrite <- app_assoc. split; [reflexivity|].
      constructor; assumption.
    + intros (evs & -> & H). inversion H as [|? ev ? evs' Hev Hrest]; subst.
      rewrite Hev. cbn [and_then]. apply IH. exists evs'.
      rewrite <- app_assoc. auto.
Qed.

(** X11. [get_tournaments] returns exactly when the first tournament list
    exists and every one of its [li] gives an event; the result then has
    one event for each [li], in the order of the page. *)
Theorem one_event_per_tournament
        (lists : list (list Tournaments.tournament_li))
        (events : list Tournaments.TournamentEvent.t) :
  Tournaments.get_tournaments lists = Return events <->
  exists lis,
    Py.index lists 0 = Ok lis /\
    List.length events = List.length lis /\
    Forall2 (fun li ev => Tournaments.li_event li = Return ev) lis events.
Proof.
  unfold Tournaments.get_tournaments. split.
  - intros H. thens. apply of_result_Return in R.
    apply tournaments_loop in H as (evs & -> & Hevs). cbn [app].
    exists y. split; [exact R|]. split; [|exact Hevs].
    symmetry. eapply Forall2_length. exact Hevs.
  - intros (lis & -> & _ & H). cbn [of_result and_then].
    apply tournaments_loop. exists events. auto.
Qed.

(** *** Stripped text *)

Lemma dropwhile_starts_clean (p : ascii -> bool) (l : list ascii) :
  starts_clean p (Py.dropwhile p l).
Proof.
  induction l as [|c l IH]; cbn; [exact I|].
  destruct (p c) eqn:E; [exact IH | exact E].
Qed.

Lemma dropwhile_suffix (p : ascii -> bool) (l : list ascii) :
  exists pre, l = pre ++ Py.dropwhile p l.
Proof.
  induction l as [|c l [pre IH]]; cbn; [exists []; reflexivity|].
  destruct (p c); [exists (c :: pre); cbn; congruence | exists []; reflexivity].
Qed.

(** Dropping from the right keeps what the left end is. *)
Lemma rdrop_starts_clean (p q : ascii -> bool) (l : list ascii) :
  starts_clean p l -> starts_clean p (rev (Py.dropwhile q (rev l))).
Proof.
  intros H. destruct (dropwhile_suffix q (rev l)) as [pre E].
  apply (f_equal (@rev ascii)) in E. rewrite rev_involutive, rev_app_distr in E.
  destruct (rev (Py.dropwhile q (rev l))) as [|c t]; [exact I|].
  rewrite E in H. exact H.
Qed.

Lemma strip_clean_ends (s : string) : clean_ends Py.isspace (Py.strip s).
Proof.
  unfold clean_ends, Py.strip, Py.strip_by.
  rewrite list_ascii_of_string_of_list_ascii. split.
  - apply rdrop_starts_clean. apply dropwhile_starts_clean.
  - rewrite rev_involutive. apply dropwhile_starts_clean.
Qed.

(** X12. The texts of an event are trimmed: its name and its date neither
    begin nor end with white space; its location does not begin with
    white space and does not end with a space or a vertical bar. *)
Theorem event_texts_are_trimmed (li : Tournaments.tournament_li)
        (ev : Tournaments.TournamentEvent.t) :
  Tournaments.li_event li = Return ev ->
  clean_ends Py.isspace (Tournaments.TournamentEvent.tournament_name ev) /\
  clean_ends Py.isspace (Tournaments.TournamentEvent.date ev) /\
  starts_clean Py.isspace
    (list_ascii_of_string (Tournaments.TournamentEvent.location ev)) /\
  starts_clean (fun c => Ascii.eqb c " " || Ascii.eqb c "|")
    (rev (list_ascii_of_string (Tournaments.TournamentEvent.location ev))).
Proof.
  unfold Tournaments.li_event. intros H. thens. injection H as <-.
  cbn [Tournaments.TournamentEvent.tournament_name
       Tournaments.TournamentEvent.date Tournaments.TournamentEvent.location].
  split; [apply strip_clean_ends|]. split; [apply strip_clean_ends|].
  unfold PyMore.rstrip_chars. rewrite list_ascii_of_string_of_list_ascii.
  split.
  - apply rdrop_starts_clean. apply strip_clean_ends.
  - rewrite rev_involutive.
    pose proof (dropwhile_starts_clean
                  (fun x => existsb (Ascii.eqb x) [" "%char; "|"%char])
                  (rev (list_ascii_of_string (Py.strip y1)))) as Hc.
    destruct (Py.dropwhile _ _) as [|c t]; [exact I|].
    cbn in Hc |- *. rewrite orb_false_r in Hc. exact Hc.
Qed.

Lemma event_texts_are_trimmed_witness :
  clean_ends Py.isspace
    (Tournaments.TournamentEvent.tournament_name
       SampleTournaments.hong_kong_event) /\
  clean_ends Py.isspace
    (Tournaments.TournamentEvent.date SampleTournaments.hong_kong_event) /\
  starts_clean Py.isspace
    (list_ascii_of_string
       (Tournaments.TournamentEvent.location
          SampleTournaments.hong_kong_event)) /\
  starts_clean (fun c => Ascii.eqb c " " || Ascii.eqb c "|")
    (rev (list_ascii_of_string
            (Tournaments.TournamentEvent.location
               SampleTournaments.hong_kong_event))).
Proof.
  apply (event_texts_are_trimmed SampleTournaments.hong_kong).
  vm_compute. reflexivity.
Defined.

(** *** The winners of a tournament *)

Lemma index_zero {A : Type} (l : list A) (x : A) :
  Py.index l 0 = Ok x -> exists rest, l = x :: rest.
Proof.
  intros H. apply index_nth in H; [|lia].
  destruct l as [|a rest]; cbn in H; [discriminate|].
  injection H as ->. eauto.
Qed.

Lemma index_one {A : Type} (l : list A) (x : A) :
  Py.index l 1 = Ok x -> exists a rest, l = a :: x :: rest.
Proof.
  intros H. apply index_nth in H; [|lia].
  destruct l as [|a [|b rest]]; cbn in H; try discriminate.
  injection H as ->. eauto.
Qed.

Lemma winners_from_more (seen more : list Tournaments.winner_dl) w :
  winners_from seen w -> winners_from (seen ++ more) w.
Proof.
  intros (Ht & Hs & Hd). split; [|split].
  - intros n Hn. destruct (Ht n Hn) as (dl & rest & t & Hin & H).
    exists dl, rest, t. split; [apply in_or_app; auto | exact H].
  - intros p Hp. destruct (Hs p Hp) as (dl & rest & nm & h & hs & Hin & H).
    exists dl, rest, nm, h, hs. split; [apply in_or_app; auto | exact H].
  - intros p q Hp.
    destruct (Hd p q Hp) as (dl & rest & n1 & n2 & h1 & h2 & hs & Hin & H).
    exists dl, rest, n1, n2, h1, h2, hs.
    split; [apply in_or_app; auto | exact H].
Qed.

Lemma winner_body_from (seen : list Tournaments.winner_dl) dl st st' :
  winners_from seen st ->
  Tournaments.winner_body dl st = Return st' ->
  winners_from (seen ++ [dl]) st'.
Proof.
  intros Hst H. pose proof (winners_from_more seen [dl] st Hst) as Hmore.
  assert (In dl (seen ++ [dl])) as Hin by (apply in_or_app; right; left; auto).
  unfold Tournaments.winner_body in H. thens.
  apply of_result_Return, index_zero in R as [rest Hdt].
  destruct (String.eqb_spec y "Team Winner") as [->|_].
  { destruct (Tournaments.dd_text dl) as [|t [|t' ts]] eqn:Edd;
      injection H as <-; try exact Hmore.
    destruct Hmore as (_ & Hs & Hd). split; [|split; assumption].
    cbn. intros n [= <-]. exists dl, rest, t. auto. }
  destruct (String.eqb_spec y "Singles Winner") as [->|_].
  { destruct (Tournaments.dd_a_text dl) as [|nm [|nm' nms]] eqn:Enm;
      try (injection H as <-; exact Hmore).
    thens. injection H as <-.
    match goal with
    | R : of_result (Py.index (Tournaments.dd_a_href dl) 0) = Return _ |- _ =>
        apply of_result_Return, index_zero in R as [hs Hh]
    end.
    destruct Hmore as (Ht & _ & Hd). split; [assumption|split; [|assumption]].
    cbn. intros p [= <-]. exists dl. do 4 eexists. repeat split; eauto. }
  destruct (String.eqb_spec y "Doubles Winners") as [->|_].
  { destruct (Tournaments.dd_a_text dl) as [|n1 [|n2 [|n3 nms]]] eqn:Enm;
      try (injection H as <-; exact Hmore).
    thens. injection H as <-.
    repeat match goal with
    | R : of_result (Py.index (Tournaments.dd_a_href dl) 0) = Return _ |- _ =>
        apply of_result_Return, index_zero in R as [hs Hh]
    | R : of_result (Py.index (Tournaments.dd_a_href dl) 1) = Return _ |- _ =>
        apply of_result_Return, index_one in R as (h0 & hs' & Hh')
    end.
    rewrite Hh in Hh'. injection Hh' as <- ->.
    destruct Hmore as (Ht & Hs & _). split; [assumption|split; [assumption|]].
    cbn. intros p q [= <- <-]. exists dl. do 6 eexists.
    repeat split; eauto. }
  injection H as <-. exact Hmore.
Qed.

Lemma winners_loop_from (dls : list Tournaments.winner_dl) :
  forall seen st w,
    winners_from seen st ->
    loop Tournaments.winner_body dls st = Return w ->
    winners_from (seen ++ dls) w.
Proof.
  induction dls as [|dl dls IH]; intros seen st w Hst H; cbn [loop] in H.
  - injection H as <-. rewrite app_nil_r. exact Hst.
  - thens. replace (seen ++ dl :: dls) with ((seen ++ [dl]) ++ dls)
      by (rewrite <- app_assoc; reflexivity).
    eapply IH; [|exact H]. eapply winner_body_from; eauto.
Qed.

(** X13. The winners of an event are read only from the winner lists of
    its [li] with the matching title: a team winner is the trimmed text
    of a "Team Winner" list with one text, a singles winner the player of
    the first link of a "Singles Winner" list with one name, the doubles
    winners the players of the first two links of a "Doubles Winners"
    list with two names.  A tournament without such a list has no such
    winner. *)
Theorem winners_come_from_their_lists (li : Tournaments.tournament_li)
        (ev : Tournaments.TournamentEvent.t) :
  Tournaments.li_event li = Return ev ->
  winners_from (Tournaments.winner_dls li)
    {| Tournaments.team_winner := Tournaments.TournamentEvent.team_winner ev;
       Tournaments.singles_winner :=
         Tournaments.TournamentEvent.singles_winner ev;
       Tournaments.doubles_winners :=
         Tournaments.TournamentEvent.doubles_winners ev |}.
Proof.
  unfold Tournaments.li_event. intros H. thens. injection H as <-.
  cbn [Tournaments.TournamentEvent.team_winner
       Tournaments.TournamentEvent.singles_winner
       Tournaments.TournamentEvent.doubles_winners].
  assert (winners_from [] Tournaments.no_winners) as H0.
  { repeat split; cbn; discriminate. }
  pose proof (winners_loop_from _ [] _ _ H0 R3) as Hw. cbn [app] in Hw.
  destruct y3. exact Hw.
Qed.

Lemma winners_come_from_their_lists_witness :
  winners_from (Tournaments.winner_dls SampleTournaments.hong_kong)
    {| Tournaments.team_winner :=
         Tournaments.TournamentEvent.team_winner
           SampleTournaments.hong_kong_event;
       Tournaments.singles_winner :=
         Tournaments.TournamentEvent.singles_winner
           SampleTournaments.hong_kong_event;
       Tournaments.doubles_winners :=
         Tournaments.TournamentEvent.doubles_winners
           SampleTournaments.hong_kong_event |}.
Proof.
  apply (winners_come_from_their_lists SampleTournaments.hong_kong).
  vm_compute. reflexivity.
Defined.

(* ================================================================== *)
(** ** Properties of [get_match_singles_stats] *)

Lemma split_three (c : ascii) (t : string) :
  count_char c t = 2%nat <-> exists h mi s, Py.split c t = [h; mi; s].
Proof.
  pose proof (split_length c t) as L. split.
  - intros H. rewrite H in L.
    destruct (Py.split c t) as [|h [|mi [|s [|x r]]]]; try discriminate.
    eauto.
  - intros (h & mi & s & H). rewrite H in L. cbn in L. lia.
Qed.

(** X14. [get_match_singles_stats] never returns statistics: when it
    returns, it returns [None].  It returns exactly when the response is
    an object whose [Match] member is an object with a string
    [MatchTimeTotal] of exactly two colons and with the members
    [NumberOfSets], [Winner], [PlayerTeam] and [OpponentTeam]; a
    [MatchTimeTotal] with another number of colons raises [ValueError]. *)
Theorem match_stats_only_returns_none (data : MatchStats.json) :
  (forall v,
     MatchStats.get_match_singles_stats data = Return v <->
     v = VNone /\
     exists members m t,
       data = MatchStats.JObject members /\
       MatchStats.member "Match" members = Some (MatchStats.JObject m) /\
       MatchStats.member "MatchTimeTotal" m = Some (MatchStats.JString t) /\
       count_char ":" t = 2%nat /\
       MatchStats.member "NumberOfSets" m <> None /\
       MatchStats.member "Winner" m <> None /\
       MatchStats.member "PlayerTeam" m <> None /\
       MatchStats.member "OpponentTeam" m <> None) /\
  (forall members m t,
     data = MatchStats.JObject members ->
     MatchStats.member "Match" members = Some (MatchStats.JObject m) ->
     MatchStats.member "MatchTimeTotal" m = Some (MatchStats.JString t) ->
     count_char ":" t <> 2%nat ->
     MatchStats.get_match_singles_stats data = Throw Exc.ValueError).
Proof.
  split.
  - intros v. split.
    + unfold MatchStats.get_match_singles_stats. intros H.
      destruct data as [| | | | |members]; try discriminate.
      cbn [MatchStats.subscript] in H.
      destruct (MatchStats.member "Match" members) as [[| | | | |m]|] eqn:Em;
        try discriminate.
      cbn [and_then MatchStats.subscript] in H.
      destruct (MatchStats.member "MatchTimeTotal" m)
        as [[| | |t| |]|] eqn:Et; try discriminate.
      cbn [and_then MatchStats.split_method] in H.
      destruct (Py.split ":" t) as [|h [|mi [|s [|x r]]]] eqn:Es;
        try discriminate.
      destruct (MatchStats.member "NumberOfSets" m) eqn:E1; [|discriminate].
      destruct (MatchStats.member "Winner" m) eqn:E2; [|discriminate].
      destruct (MatchStats.member "PlayerTeam" m) eqn:E3; [|discriminate].
      destruct (MatchStats.member "OpponentTeam" m) eqn:E4; [|discriminate].
      cbn [and_then] in H. injection H as <-. split; [reflexivity|].
      exists members, m, t.
      repeat (split; [solve [auto | congruence | apply split_three; eauto]|]).
      congruence.
    + intros (-> & members & m & t & -> & Em & Et & Hc & H1 & H2 & H3 & H4).
      apply split_three in Hc as (h & mi & s & Hs).
      unfold MatchStats.get_match_singles_stats.
      cbn [MatchStats.subscript]. rewrite Em. cbn [and_then MatchStats.subscript].
      rewrite Et. cbn [and_then MatchStats.split_method]. rewrite Hs.
      destruct (MatchStats.member "NumberOfSets" m); [|congruence].
      destruct (MatchStats.member "Winner" m); [|congruence].
      destruct (MatchStats.member "PlayerTeam" m); [|congruence].
      destruct (MatchStats.member "OpponentTeam" m); [|congruence].
      reflexivity.
  - intros members m t -> Em Et Hc.
    unfold MatchStats.get_match_singles_stats.
    cbn [MatchStats.subscript]. rewrite Em. cbn [and_then MatchStats.subscript].
    rewrite Et. cbn [and_then MatchStats.split_method].
    destruct (Py.split ":" t) as [|h [|mi [|s [|x r]]]] eqn:Es;
      try reflexivity.
    exfalso. apply Hc. apply split_three. eauto.
Qed.

Lemma match_stats_only_returns_none_witness :
  MatchStats.get_match_singles_stats
    (SampleStats.match_object (MatchStats.JString "01:23:45")) = Return VNone /\
  MatchStats.get_match_singles_stats
    (SampleStats.match_object (MatchStats.JString "83 min"))
  = Throw Exc.ValueError.
Proof.
  split.
  - apply (proj1 (match_stats_only_returns_none
                    (SampleStats.match_object (MatchStats.JString "01:23:45")))).
    split; [reflexivity|]. do 3 eexists.
    repeat split; try reflexivity; discriminate.
  - eapply (proj2 (match_stats_only_returns_none
                     (SampleStats.match_object (MatchStats.JString "83 min"))));
      try reflexivity.
    vm_compute. discriminate.
Defined.

(* ================================================================== *)
(** ** Properties of [get_ranking_regions] *)

Lemma dict_get_set {V : Type} (k k' : string) (v : V) (d : list (string * V)) :
  Regions.dict_get k (Regions.dict_set k' v d)
  = if String.eqb k k' then Some v else Regions.dict_get k d.
Proof.
  induction d as [|[k0 v0] d IH]; cbn [Regions.dict_set Regions.dict_get].
  - reflexivity.
  - destruct (String.eqb_spec k' k0) as [->|Hne]; cbn [Regions.dict_get].
    + destruct (String.eqb k k0); reflexivity.
    + rewrite IH. destruct (String.eqb_spec k k0) as [->|]; [|reflexivity].
      destruct (String.eqb_spec k0 k'); [congruence | reflexivity].
Qed.

Lemma dict_set_keys {V : Type} (k : string) (v : V) (d : list (string * V)) :
  forall x, In x (map fst (Regions.dict_set k v d)) <->
            x = k \/ In x (map fst d).
Proof.
  induction d as [|[k0 v0] d IH]; intros x; cbn [Regions.dict_set map fst In].
  - intuition congruence.
  - destruct (String.eqb_spec k k0) as [->|Hne]; cbn [map fst In].
    + intuition congruence.
    + rewrite IH. intuition congruence.
Qed.

Lemma dict_set_NoDup {V : Type} (k : string) (v : V) (d : list (string * V)) :
  NoDup (map fst d) -> NoDup (map fst (Regions.dict_set k v d)).
Proof.
  induction d as [|[k0 v0] d IH]; cbn [Regions.dict_set map fst]; intros H.
  - repeat constructor. intros [].
  - inversion H as [|? ? Hn Hd]; subst.
    destruct (String.eqb_spec k k0) as [->|Hne]; cbn [map fst].
    + constructor; assumption.
    + constructor; [|apply IH; exact Hd].
      rewrite dict_set_keys. intros [E|Hin]; [congruence | contradiction].
Qed.

Lemma regions_of_snoc (pre : list Regions.region_a) (a : Regions.region_a) :
  Regions.regions_of (pre ++ [a])
  = Regions.dict_set (Py.strip (Regions.a_text_content a))
                     (Regions.a_data_value a) (Regions.regions_of pre).
Proof. unfold Regions.regions_of. rewrite fold_left_app. reflexivity. Qed.

(** X15. The regions returned by [get_ranking_regions] are keyed by the
    trimmed texts of the anchors: every key is the trimmed text of an
    anchor, no key occurs twice, and when several anchors have the same
    trimmed text the value of the last one is kept. *)
Theorem regions_keep_last_value (anchors : list Regions.region_a) :
  NoDup (map fst (Regions.regions_of anchors)) /\
  (forall k,
     In k (map fst (Regions.regions_of anchors)) <->
     exists a, In a anchors /\ k = Py.strip (Regions.a_text_content a)) /\
  (forall k, In k (map fst (Regions.regions_of anchors)) ->
             clean_ends Py.isspace k) /\
  (forall pre a k,
     anchors = pre ++ [a] ->
     Regions.dict_get k (Regions.regions_of anchors)
     = if String.eqb k (Py.strip (Regions.a_text_content a))
       then Some (Regions.a_data_value a)
       else Regions.dict_get k (Regions.regions_of pre)).
Proof.
  assert (forall k,
            In k (map fst (Regions.regions_of anchors)) <->
            exists a, In a anchors /\ k = Py.strip (Regions.a_text_content a))
    as Hkeys.
  { induction anchors as [|a pre IH] using rev_ind; intros k.
    - cbn. split; [intros [] | intros (a & [] & _)].
    - rewrite regions_of_snoc, dict_set_keys, IH. split.
      + intros [->|(b & Hb & ->)].
        * exists a. split; [apply in_or_app; right; left|]; reflexivity.
        * exists b. split; [apply in_or_app; left; exact Hb | reflexivity].
      + intros (b & Hb & ->). apply in_app_or in Hb as [Hb|[<-|[]]];
          [right; eauto | left; reflexivity]. }
  split; [|split; [exact Hkeys|split]].
  - clear Hkeys. induction anchors as [|a pre IH] using rev_ind; [constructor|].
    rewrite regions_of_snoc. apply dict_set_NoDup. exact IH.
  - intros k Hk. apply Hkeys in Hk as (a & _ & ->). apply strip_clean_ends.
  - intros pre a k ->. rewrite regions_of_snoc. apply dict_get_set.
Qed.

(** X16. The reference of a tournament is read from its profile link once
    the name, the venue, the date and the winners are read: an anchor
    without [href] raises [AttributeError], a link of fewer than four
    slashes [IndexError], a segment 4 that is no integer [ValueError];
    otherwise the id is the integer of segment 4 and the slug is
    segment 3. *)
Theorem tournament_ref_of_link (li : Tournaments.tournament_li)
        (link : option string) (name0 venue0 date0 : string)
        (w : Tournaments.winners) :
  Py.index (Tournaments.profile_a li) 0 = Ok link ->
  Py.index (Tournaments.name_span li) 0 = Ok name0 ->
  Py.index (Tournaments.venue_span li) 0 = Ok venue0 ->
  Py.index (Tournaments.date_span li) 0 = Ok date0 ->
  loop Tournaments.winner_body (Tournaments.winner_dls li)
       Tournaments.no_winners = Return w ->
  (link = None -> Tournaments.li_event li = Throw Exc.AttributeError) /\
  (forall h, link = Some h -> (count_char "/" h < 4)%nat ->
             Tournaments.li_event li = Throw Exc.IndexError) /\
  (forall h seg, link = Some h ->
                 nth_error (Py.split "/" h) 4 = Some seg ->
                 Py.int seg = Raise ValueError ->
                 Tournaments.li_event li = Throw Exc.ValueError) /\
  (forall h seg id, link = Some h ->
     nth_error (Py.split "/" h) 4 = Some seg -> Py.int seg = Ok id ->
     exists ev,
       Tournaments.li_event li = Return ev /\
       Tournaments.Ref.id (Tournaments.TournamentEvent.tournament_ref ev) = id /\
       nth_error (Py.split "/" h) 3
       = Some (Tournaments.Ref.slug
                 (Tournaments.TournamentEvent.tournament_ref ev))).
Proof.
  intros Hl Hn Hv Hd Hw.
  unfold Tournaments.li_event. rewrite Hl, Hn, Hv, Hd.
  cbn [of_result and_then]. rewrite Hw. cbn [and_then].
  split; [intros ->; reflexivity|]. split; [|split].
  - intros h -> Hc. cbn [and_then].
    pose proof (split_length "/" h) as L.
    unfold Py.index at 1. cbn [Z.ltb Z.compare].
    destruct (Z.ltb_spec 4 (Z.of_nat (List.length (Py.split "/" h))));
      [lia|]. reflexivity.
  - intros h seg -> Hseg Hint. cbn [and_then].
    assert (4 < List.length (Py.split "/" h))%nat as L.
    { apply nth_error_Some. rewrite Hseg. discriminate. }
    destruct (index_nonneg (Py.split "/" h) 4) as (x & -> & Hx);
      [unfold len; lia|].
    change (Z.to_nat 4) with 4%nat in Hx. rewrite Hseg in Hx.
    injection Hx as <-.
    cbn [of_result and_then]. rewrite Hint. reflexivity.
  - intros h seg id -> Hseg Hint. cbn [and_then].
    assert (4 < List.length (Py.split "/" h))%nat as L.
    { apply nth_error_Some. rewrite Hseg. discriminate. }
    destruct (index_nonneg (Py.split "/" h) 4) as (x & -> & Hx);
      [unfold len; lia|].
    change (Z.to_nat 4) with 4%nat in Hx. rewrite Hseg in Hx.
    injection Hx as <-.
    cbn [of_result and_then]. rewrite Hint. cbn [of_result and_then].
    destruct (index_nonneg (Py.split "/" h) 3) as (x3 & -> & Hx3);
      [unfold len; lia|].
    cbn [of_result and_then]. eexists. split; [reflexivity|].
    cbn. split; [reflexivity | exact Hx3].
Qed.

Lemma tournament_ref_of_link_witness :
  exists ev,
    Tournaments.li_event SampleTournaments.hong_kong = Return ev /\
    Tournaments.Ref.id (Tournaments.TournamentEvent.tournament_ref ev) = 336 /\
    nth_error (Py.split "/" "/en/tournaments/hong-kong/336/overview") 3
    = Some (Tournaments.Ref.slug
              (Tournaments.TournamentEvent.tournament_ref ev)).
Proof.
  refine (proj2 (proj2 (proj2
            (tournament_ref_of_link SampleTournaments.hong_kong
               (Some "/en/tournaments/hong-kong/336/overview")
               " Hong Kong Open " " Hong Kong, China | "
               " 1 - 7 January, 2024 " _ _ _ _ _ _)))
            "/en/tournaments/hong-kong/336/overview" "336" 336 _ _ _);
    vm_compute; reflexivity.
Defined.
